(** * OpenAccess client: a shallow embedding of [OpenAccess/openaccess.py]

    The Python class [OpenAccess] is modelled as a record holding the
    instance attributes, the [requests] session it owns as a second
    record, and every method as a computation in a state-and-exception
    monad over the "world": the object, the log of the calls it has made
    into [requests], and what was printed.  [requests] with the peer behind
    it, the UTF-8 decoder and [json.loads] are library code outside the
    repository and are taken as parameters of the development, and so are
    the values of the [.env] file, which the class binds once as [config].

    A call into [requests] is recorded with what the program hands over:
    method, URL, headers, [verify] setting and JSON body.  What [requests]
    then does with them (following redirects, dropping a header whose value
    is [None], refusing a header value that is not text, letting a CA
    bundle named in the environment take the place of a session's
    [verify]) is its own business; the part of it that statements below
    need is spelled out in [goes_out_as].

    Integers are [Z], with [str] of an integer given by [pretty]; Python
    [str] and [bytes] are both [string].  The module's third line imports
    from [python-dotenv], which is not a name Python can import from; the
    methods are modelled as they are written below it. *)

From Stdlib Require Import ZArith String Ascii List Bool Lia QArith Qpower.
From stdpp Require Import base strings gmap pretty.

Set Warnings "-register-all".
Open Scope string_scope.
Open Scope Z_scope.

(** ** Python values produced by [json.loads] *)

(** A Python [float]: a dyadic rational [m * 2^e], an infinity or NaN. *)
Inductive pyfloat : Type :=
  | FNum (m e : Z)
  | FInf (negative : bool)
  | FNaN.

Inductive json : Type :=
  | JNull
  | JBool (b : bool)
  | JInt (n : Z)
  | JFloat (f : pyfloat)
  | JStr (s : string)
  | JArr (items : list json)
  | JObj (members : list (string * json)).

(** Exceptions the modelled code can raise. *)
Inductive exn : Type :=
  | KeyError (key : string)
  | TypeError (what : string)
  | AttributeError (name : string)
  | JSONDecodeError
  | UnicodeDecodeError
  | RequestException (message : string).

Inductive res (A : Type) : Type :=
  | Ok (a : A)
  | Raise (e : exn).
Arguments Ok {A} a.
Arguments Raise {A} e.

#[global] Instance res_ret : MRet res := fun A a => Ok a.

#[global] Instance res_bind : MBind res := fun A B f r =>
  match r with
  | Ok a => f a
  | Raise e => Raise e
  end.

(** [float == int], exact as in Python (no rounding of the integer). *)
Definition float_eq_int (f : pyfloat) (k : Z) : bool :=
  match f with
  | FNum m e => if 0 <=? e then m * 2 ^ e =? k else m =? k * 2 ^ (- e)
  | FInf _ => false
  | FNaN => false
  end.

(** [v == k] for an integer [k].  [bool] is a subclass of [int] in Python,
    so [True] is the integer [1] and [False] the integer [0]. *)
Definition py_eq_int (v : json) (k : Z) : bool :=
  match v with
  | JBool b => Z.b2z b =? k
  | JInt n => n =? k
  | JFloat f => float_eq_int f k
  | _ => false
  end.

Definition py_True : Z := 1.

(** [d[key]] on a [dict] built by [json.loads]; [members] lists the items
    of the dict in insertion order, each key once. *)
Fixpoint dict_get (key : string) (members : list (string * json)) : option json :=
  match members with
  | [] => None
  | (k, v) :: rest => if String.eqb k key then Some v else dict_get key rest
  end.

(** [v[key]] with a string subscript. *)
Definition getitem (v : json) (key : string) : res json :=
  match v with
  | JObj members =>
      match dict_get key members with
      | Some x => Ok x
      | None => Raise (KeyError key)
      end
  | JArr _ => Raise (TypeError "list indices must be integers or slices, not str")
  | JStr _ => Raise (TypeError "string indices must be integers, not 'str'")
  | _ => Raise (TypeError "object is not subscriptable")
  end.

Fixpoint chars (s : string) : list json :=
  match s with
  | EmptyString => []
  | String c rest => JStr (String c EmptyString) :: chars rest
  end.

(** What [for jo in v] iterates over. *)
Definition iterate (v : json) : res (list json) :=
  match v with
  | JArr items => Ok items
  | JObj members => Ok (map (fun kv => JStr (fst kv)) members)
  | JStr s => Ok (chars s)
  | _ => Raise (TypeError "object is not iterable")
  end.

(** [range(2, pageCount + 1)]: [+] and [range] accept [int] and [bool] only
    among the values [json.loads] yields together with [1]. *)
Definition page_range (pageCount : json) : res (list Z) :=
  match pageCount with
  | JInt n => Ok (seqZ 2 (n + 1 - 2))
  | JBool b => Ok (seqZ 2 (Z.b2z b + 1 - 2))
  | JFloat _ => Raise (TypeError "'float' object cannot be interpreted as an integer")
  | _ => Raise (TypeError "unsupported operand type(s) for +")
  end.

(** ** Domain records built by the projectors *)

Record Panel : Type := mkPanel {
  panel_id : json;
  panel_name : json;
  panel_status : bool;
  panel_type : json
}.

Record Reader : Type := mkReader {
  reader_panelId : json;
  reader_id : json;
  reader_name : json;
  reader_type : json;
  reader_hostName : json
}.

Record Directory : Type := mkDirectory {
  directory_Id : json;
  directory_Name : json
}.

(** The object handed to [OpenDoor]: it is read through attributes. *)
Record ReaderObject : Type := mkReaderObject {
  panelId : Z;
  id : Z
}.

(** ** [requests]: headers, session, requests and responses *)

Definition lower_ascii (c : ascii) : ascii :=
  let n := nat_of_ascii c in
  if (65 <=? n)%nat && (n <=? 90)%nat then ascii_of_nat (n + 32) else c.

Fixpoint lower (s : string) : string :=
  match s with
  | EmptyString => EmptyString
  | String c rest => String (lower_ascii c) (lower rest)
  end.

(** [requests.structures.CaseInsensitiveDict]: the store is keyed by the
    lower-cased name and remembers the name as last written. *)
Definition update_header (name : string) (value : json)
    (h : gmap string (string * json)) : gmap string (string * json) :=
  <[lower name := (name, value)]> h.

Definition header (name : string) (h : gmap string (string * json)) : option json :=
  snd <$> h !! lower name.

Record Session : Type := mkSession {
  headers : gmap string (string * json);
  verify : bool;
  session_base_url : string
}.

Inductive http_method : Type := GET | POST.

(** One call into [requests], by what the program hands it: the headers
    are those of the session or of the [headers] argument, [req_verify] is
    the [verify] argument or, through the session, the session's setting. *)
Record Request : Type := mkRequest {
  req_method : http_method;
  req_url : string;
  req_headers : gmap string (string * json);
  req_verify : bool;
  req_json : option json
}.

Record Response : Type := mkResponse {
  status_code : Z;
  reason : string;
  content : string;
  text : string
}.

(** [Response.ok]: [raise_for_status] raises for 4xx and 5xx only. *)
Definition ok (r : Response) : bool :=
  negb ((400 <=? status_code r) && (status_code r <? 600)).

(** How a call into [requests] comes back: with the response it returns
    (the last one, where it has followed redirects), or with an exception
    of the [RequestException] family (no connection, or the call refused
    while it was being prepared, before anything was sent). *)
Inductive Outcome : Type :=
  | Responds (r : Response)
  | Fails (message : string).

(** What a method hands back when it is not of one fixed type. *)
Inductive value : Type :=
  | VNone
  | VStr (s : string)
  | VDirectories (ds : list Directory).

(** ** The client object and the world around it *)

Record Config : Type := mkConfig {
  API_URL : string;
  DEFAULT_PAGE_SIZE : string;
  SUCCESS : string;
  ERROR : string;
  API_VERSION : string;
  APPLICATION_ID : string
}.

Record OpenAccess : Type := mkOpenAccess {
  base_url : string;
  client : Session;
  panels : list Panel;
  session_token : option json
}.

Record World : Type := mkWorld {
  self : OpenAccess;
  sent : list Request;
  stdout : list string
}.

(** ** The monad of methods: state passing with exceptions *)

Definition M (A : Type) : Type := World -> res A * World.

#[global] Instance M_ret : MRet M := fun A a w => (Ok a, w).

#[global] Instance M_bind : MBind M := fun A B f m w =>
  match m w with
  | (Ok a, w') => f a w'
  | (Raise e, w') => (Raise e, w')
  end.

Definition raise {A : Type} (e : exn) : M A := fun w => (Raise e, w).

Definition lift {A : Type} (r : res A) : M A := fun w => (r, w).

Definition get_self : M OpenAccess := fun w => (Ok (self w), w).

Definition set_self (o : OpenAccess) : M unit :=
  fun w => (Ok tt, mkWorld o (sent w) (stdout w)).

Definition print (line : string) : M unit :=
  fun w => (Ok tt, mkWorld (self w) (sent w) (stdout w ++ [line])).

(** [try: body except requests.exceptions.RequestException as e:] — the
    caught message comes back on the left. *)
Definition try_RequestException {A : Type} (body : M A) : M (string + A) :=
  fun w =>
    match body w with
    | (Ok a, w') => (Ok (inr a), w')
    | (Raise (RequestException e), w') => (Ok (inl e), w')
    | (Raise e, w') => (Raise e, w')
    end.

Definition newline : string := String (ascii_of_nat 10) EmptyString.

(** Naive substring test, used to state what a message contains. *)
Fixpoint contains (needle hay : string) : bool :=
  String.prefix needle hay ||
  match hay with
  | EmptyString => false
  | String _ rest => contains needle rest
  end.

(** The attributes a [requests.Session] answers to. *)
Definition session_attributes : list string :=
  ["headers"; "auth"; "proxies"; "hooks"; "params"; "stream"; "verify";
   "cert"; "max_redirects"; "trust_env"; "cookies"; "adapters";
   "prepare_request"; "request"; "get"; "options"; "head"; "post"; "put";
   "patch"; "delete"; "send"; "merge_environment_settings"; "get_adapter";
   "close"; "mount"; "base_url"].

(** ** Test doubles

    A configuration, a decoder for ASCII bodies, a [json.loads] that knows
    the documents below by their serialised text, and a few HTTP peers. *)

Module Stub.

Definition config : Config :=
  {| API_URL := "https://onguard.example/api/access/onguard/openaccess/";
     DEFAULT_PAGE_SIZE := "20";
     SUCCESS := "Success";
     ERROR := "Error";
     API_VERSION := "1.0";
     APPLICATION_ID := "OPENACCESS_DEMO" |}.

Definition is_ascii (c : ascii) : bool := (nat_of_ascii c <? 128)%nat.

Fixpoint all_ascii (s : string) : bool :=
  match s with
  | EmptyString => true
  | String c rest => is_ascii c && all_ascii rest
  end.

(** ASCII bytes decode to the same characters; other bodies are refused. *)
Definition decode_utf8 (b : string) : option string :=
  if all_ascii b then Some b else None.

Definition quote : string := String (ascii_of_nat 34) EmptyString.

Fixpoint join (sep : string) (parts : list string) : string :=
  match parts with
  | [] => ""
  | [x] => x
  | x :: rest => x ++ sep ++ join sep rest
  end.

(** Serialisation in the layout of [json.dumps] (floats are not used by the
    documents below). *)
Fixpoint dumps (v : json) : string :=
  match v with
  | JNull => "null"
  | JBool true => "true"
  | JBool false => "false"
  | JInt n => pretty n
  | JFloat _ => "NaN"
  | JStr s => quote ++ s ++ quote
  | JArr items => "[" ++ join ", " (map dumps items) ++ "]"
  | JObj members =>
      "{" ++ join ", " (map (λ kv, let '(k, x) := kv in
                                   quote ++ k ++ quote ++ ": " ++ dumps x) members)
          ++ "}"
  end.

Definition property_value_map (fields : list (string * json)) : json :=
  JObj [("property_value_map", JObj fields)].

Definition token_document : json := JObj [("session_token", JStr "T")].

Definition empty_document : json := JObj [].

Definition lobby_item : json :=
  property_value_map [("ID", JStr "1"); ("Name", JStr "Lobby");
                      ("IsOnline", JBool true); ("PanelType", JStr "X")].

Definition garage_item : json :=
  property_value_map [("ID", JStr "2"); ("Name", JStr "Garage");
                      ("IsOnline", JBool false); ("PanelType", JStr "Y")].

Definition lobby : Panel :=
  {| panel_id := JStr "1"; panel_name := JStr "Lobby";
     panel_status := true; panel_type := JStr "X" |}.

Definition garage : Panel :=
  {| panel_id := JStr "2"; panel_name := JStr "Garage";
     panel_status := false; panel_type := JStr "Y" |}.

Definition panels_page (i : Z) : json :=
  if i =? 1
  then JObj [("count", JInt 1); ("item_list", JArr [lobby_item]);
             ("page_number", JInt 1); ("total_pages", JInt 2)]
  else JObj [("count", JInt 1); ("item_list", JArr [garage_item]);
             ("page_number", JInt 2); ("total_pages", JInt 2)].

Definition panels_items (i : Z) : list Panel :=
  if i =? 1 then [lobby] else [garage].

Definition front_door_item : json :=
  property_value_map [("PanelID", JInt 5); ("ReaderID", JInt 0);
                      ("Name", JStr "Front door"); ("ControlType", JInt 1);
                      ("HostName", JStr "panel-5")].

Definition back_door_item : json :=
  property_value_map [("PanelID", JInt 5); ("ReaderID", JInt 1);
                      ("Name", JStr "Back door"); ("ControlType", JInt 1);
                      ("HostName", JStr "panel-5")].

Definition front_door : Reader :=
  {| reader_panelId := JInt 5; reader_id := JInt 0;
     reader_name := JStr "Front door"; reader_type := JInt 1;
     reader_hostName := JStr "panel-5" |}.

Definition back_door : Reader :=
  {| reader_panelId := JInt 5; reader_id := JInt 1;
     reader_name := JStr "Back door"; reader_type := JInt 1;
     reader_hostName := JStr "panel-5" |}.

Definition readers_page (i : Z) : json :=
  if i =? 1
  then JObj [("count", JInt 1); ("item_list", JArr [front_door_item]);
             ("page_number", JInt 1); ("total_pages", JInt 2)]
  else JObj [("count", JInt 1); ("item_list", JArr [back_door_item]);
             ("page_number", JInt 2); ("total_pages", JInt 2)].

Definition readers_items (i : Z) : list Reader :=
  if i =? 1 then [front_door] else [back_door].

(** What the peer serves for a panel that has no readers. *)
Definition no_readers_document : json :=
  JObj [("count", JInt 0); ("item_list", JArr []);
        ("page_number", JInt 1); ("total_pages", JInt 0)].

Definition corporate_item : json :=
  property_value_map [("ID", JStr "id-1"); ("Name", JStr "Corporate")].

Definition corporate : Directory :=
  {| directory_Id := JStr "id-1"; directory_Name := JStr "Corporate" |}.

Definition directories_document : json :=
  JObj [("item_list", JArr [corporate_item]); ("total_items", JInt 1)].

Definition documents : list json :=
  [token_document; empty_document; panels_page 1; panels_page 2;
   readers_page 1; readers_page 2; no_readers_document; directories_document].

Definition json_loads (s : string) : option json :=
  List.find (λ v, String.eqb (dumps v) s) documents.

Definition answer (status : Z) (why : string) (body : string) : Response :=
  {| status_code := status; reason := why; content := body; text := body |}.

Definition routes : list (string * json) :=
  [("https://onguard.example/api/access/onguard/openaccess/authentication?version=1.0",
    token_document);
   ("https://onguard.example/api/access/onguard/openaccess/instances?version=1.0&type_name=Lnl_Panel&page_number=1&page_size=20&order_by=name",
    panels_page 1);
   ("https://onguard.example/api/access/onguard/openaccess/instances?version=1.0&type_name=Lnl_Panel&page_number=2&page_size=20&order_by=name",
    panels_page 2);
   ("https://onguard.example/api/access/onguard/openaccess/instances?version=1.0&type_name=Lnl_Reader&page_number=1&page_size=20&order_by=name&filter=panelid = 5",
    readers_page 1);
   ("https://onguard.example/api/access/onguard/openaccess/instances?version=1.0&type_name=Lnl_Reader&page_number=2&page_size=20&order_by=name&filter=panelid = 5",
    readers_page 2);
   ("https://onguard.example/api/access/onguard/openaccess/instances?version=1.0&type_name=Lnl_Reader&page_number=1&page_size=20&order_by=name&filter=panelid = 9",
    no_readers_document);
   ("https://onguard.example/api/access/onguard/openaccess/directories?version=1.0",
    directories_document)].

(** A peer that is up and serves the routes above, whatever came before. *)
Definition peer (before : list Request) (r : Request) : Outcome :=
  match dict_get (req_url r) routes with
  | Some document => Responds (answer 200 "OK" (dumps document))
  | None => Responds (answer 404 "Not Found" "")
  end.

(** A peer nothing can connect to. *)
Definition peer_down (before : list Request) (r : Request) : Outcome :=
  Fails "Connection refused".

(** A peer that fails every request on its side. *)
Definition peer_failing (before : list Request) (r : Request) : Outcome :=
  Responds (answer 500 "Internal Server Error" "boom").

(** A peer that accepts every request and answers with an empty object. *)
Definition peer_empty (before : list Request) (r : Request) : Outcome :=
  Responds (answer 200 "OK" (dumps empty_document)).

(** A second token, a [json.loads] that also knows it, and a peer that
    grants ["T"] to the first request it sees and ["T2"] to later ones. *)
Definition rotated_document : json := JObj [("session_token", JStr "T2")].

Definition json_loads_rotated (s : string) : option json :=
  List.find (λ v, String.eqb (dumps v) s) (rotated_document :: documents).

Definition peer_rotating (before : list Request) (r : Request) : Outcome :=
  match before with
  | [] => Responds (answer 200 "OK" (dumps token_document))
  | _ => Responds (answer 200 "OK" (dumps rotated_document))
  end.

(** A peer that serves its first request and then drops the connection. *)
Definition peer_flaky (before : list Request) (r : Request) : Outcome :=
  match before with
  | [] => peer before r
  | _ => Fails "Connection reset by peer"
  end.

(** A peer that answers every request with the page of an empty result. *)
Definition peer_nothing (before : list Request) (r : Request) : Outcome :=
  Responds (answer 200 "OK" (dumps no_readers_document)).

(** An entry whose property map lacks Name. *)
Definition nameless_item : json := property_value_map [("ID", JStr "9")].

(** An entry for a panel whose online flag is any JSON value, and the
    record with a given status that goes with it. *)
Definition flagged_item (flag : json) : json :=
  property_value_map [("ID", JStr "3"); ("Name", JStr "Dock");
                      ("IsOnline", flag); ("PanelType", JStr "Z")].

Definition flagged (status : bool) : Panel :=
  {| panel_id := JStr "3"; panel_name := JStr "Dock";
     panel_status := status; panel_type := JStr "Z" |}.

(** A peer whose authentication answer holds [null] as the token, and a
    [json.loads] that knows that answer. *)
Definition null_token_document : json := JObj [("session_token", JNull)].

Definition json_loads_null (s : string) : option json :=
  List.find (λ v, String.eqb (dumps v) s) (null_token_document :: documents).

Definition peer_null (before : list Request) (r : Request) : Outcome :=
  Responds (answer 200 "OK" (dumps null_token_document)).

End Stub.

Section Client.

Variable config : Config.
(** [bytes.decode('utf-8')] and [json.loads]; [None] stands for the
    exception each raises on bad input. *)
Variable decode_utf8 : string -> option string.
Variable json_loads : string -> option json.
(** [requests] and the peer behind it: how a call comes back, given the
    calls this process has made before it.  Any run of the library against
    a server, stateful or not, is such a function. *)
Variable transport : list Request -> Request -> Outcome.

(** [OpenAccess.__init__] (the logging set-up has no effect on the object). *)
Definition init : OpenAccess :=
  let h0 : gmap string (string * json) := ∅ in
  let h := update_header "Accept" (JStr "application/json")
             (update_header "Content-Type" (JStr "application/json")
               (update_header "Application-Id" (JStr (APPLICATION_ID config)) h0)) in
  {| base_url := API_URL config;
     client := {| headers := h; verify := false; session_base_url := API_URL config |};
     panels := [];
     session_token := None |}.

Definition fresh_world : World :=
  {| self := init; sent := []; stdout := [] |}.

(** One call into [requests]: it is logged, then it comes back with a
    response or raises. *)
Definition send (r : Request) : M Response :=
  fun w =>
    let w' := mkWorld (self w) (sent w ++ [r]) (stdout w) in
    match transport (sent w) r with
    | Responds resp => (Ok resp, w')
    | Fails e => (Raise (RequestException e), w')
    end.

(** [self.client.get(url)]: the call is made with the session's headers and
    [verify] setting, as they are stored. *)
Definition client_get (url : string) : M Response :=
  o ← get_self;
  send {| req_method := GET; req_url := url;
          req_headers := headers (client o);
          req_verify := verify (client o);
          req_json := None |}.

(** [requests.post(url, json=..., verify=..., headers=...)]. *)
Definition requests_post (url : string) (body : json) (vfy : bool)
    (hs : gmap string (string * json)) : M Response :=
  send {| req_method := POST; req_url := url; req_headers := hs;
          req_verify := vfy; req_json := Some body |}.

Definition parse_response (response : Response) : M json :=
  match decode_utf8 (content response) with
  | None => raise UnicodeDecodeError
  | Some s =>
      match json_loads s with
      | None => raise JSONDecodeError
      | Some v => mret v
      end
  end.

Definition build_uri_with_version (method_name version : string) : M string :=
  o ← get_self;
  mret (base_url o ++ method_name ++ "?version=" ++ version).

(** A call of [self.build_uri_with_version] with positional arguments: the method takes exactly
    [method_name] and [version]. *)
Definition call_build_uri_with_version (args : list string) : M string :=
  match args with
  | [method_name; version] => build_uri_with_version method_name version
  | _ => raise (TypeError "build_uri_with_version() missing 1 required positional argument: 'version'")
  end.

Definition request_instances (type : string) (page_num : Z) (panel_id : Z) : M json :=
  uri ← build_uri_with_version "instances" "1.0";
  let request := uri ++ "&type_name=" ++ type ++ "&page_number=" ++ pretty page_num
                     ++ "&page_size=" ++ DEFAULT_PAGE_SIZE config ++ "&order_by=name" in
  let request := if decide (panel_id ≠ -1)
                 then request ++ "&filter=panelid = " ++ pretty panel_id
                 else request in
  response ← client_get request;
  parse_response response.

(** [for jo in items: acc.append(f(jo))]. *)
Fixpoint for_append {A : Type} (f : json → res A) (items : list json)
    (acc : list A) : res (list A) :=
  match items with
  | [] => Ok acc
  | jo :: rest => x ← f jo; for_append f rest (acc ++ [x])
  end.

Definition panel_of_item (jo : json) : res Panel :=
  m ← getitem jo "property_value_map"; i ← getitem m "ID";
  m ← getitem jo "property_value_map"; n ← getitem m "Name";
  m ← getitem jo "property_value_map"; o ← getitem m "IsOnline";
  m ← getitem jo "property_value_map"; t ← getitem m "PanelType";
  mret {| panel_id := i; panel_name := n;
          panel_status := py_eq_int o py_True; panel_type := t |}.

Definition get_panels_from_result (result : json) : res (list Panel) :=
  l ← getitem result "item_list";
  items ← iterate l;
  for_append panel_of_item items [].

Definition reader_of_item (jo : json) : res Reader :=
  m ← getitem jo "property_value_map"; p ← getitem m "PanelID";
  m ← getitem jo "property_value_map"; r ← getitem m "ReaderID";
  m ← getitem jo "property_value_map"; n ← getitem m "Name";
  m ← getitem jo "property_value_map"; t ← getitem m "ControlType";
  m ← getitem jo "property_value_map"; h ← getitem m "HostName";
  mret {| reader_panelId := p; reader_id := r; reader_name := n;
          reader_type := t; reader_hostName := h |}.

Definition get_readers_from_result (result : json) : res (list Reader) :=
  l ← getitem result "item_list";
  items ← iterate l;
  for_append reader_of_item items [].

Definition request_cardholder (autoload_badge has_badges : bool)
    (cardholder_filter badges_filter : option string) : M json :=
  request ← build_uri_with_version "cardholders" "1.2";
  let request := if autoload_badge then request ++ "&auto_load_badge=true" else request in
  let request := match cardholder_filter with
                 | Some f => request ++ "&cardholder_filter=" ++ f
                 | None => request
                 end in
  let request := match badges_filter with
                 | Some f => request ++ "&badges_filter=" ++ f
                 | None => request
                 end in
  response ← client_get request;
  parse_response response.

Definition set_session_token (tok : json) : M unit :=
  o ← get_self;
  set_self {| base_url := base_url o; client := client o;
              panels := panels o; session_token := Some tok |}.

(** [self.client.headers.update({name: value})]. *)
Definition client_headers_update (name : string) (value : json) : M unit :=
  o ← get_self;
  let c := client o in
  set_self {| base_url := base_url o;
              client := {| headers := update_header name value (headers c);
                           verify := verify c;
                           session_base_url := session_base_url c |};
              panels := panels o; session_token := session_token o |}.

Definition sign_in (username password directory_id : string) : M string :=
  let user := JObj [("user_name", JStr username); ("password", JStr password);
                    ("directory_id", JStr directory_id)] in
  attempt ← try_RequestException (
    url ← build_uri_with_version "authentication" "1.0";
    print url;;
    o ← get_self;
    requests_post url user false (headers (client o)));
  match attempt with
  | inl e =>
      mret ("Connection was unexpectedly closed. Make sure you don't have anything other than OpenAccess running on port 8080. Message: " ++ e)
  | inr response =>
      if ok response then
        result ← parse_response response;
        tok ← lift (getitem result "session_token");
        set_session_token tok;;
        tok ← (o ← get_self;
               match session_token o with
               | Some t => mret t
               | None => raise (AttributeError "session_token")
               end);
        client_headers_update "Session-Token" tok;;
        mret (SUCCESS config)
      else
        mret ("A server error occurred during your request. If the status code is available, it is shown below"
              ++ newline ++ pretty (status_code response) ++ ": " ++ reason response)
  end.

Definition directory_of_item (directory : json) : res Directory :=
  m ← getitem directory "property_value_map"; i ← getitem m "ID";
  m ← getitem directory "property_value_map"; n ← getitem m "Name";
  mret {| directory_Id := i; directory_Name := n |}.

Definition get_directories : M value :=
  uri ← build_uri_with_version "directories" "1.0";
  response ← client_get uri;
  if status_code response =? 200 then
    match json_loads (text response) with
    | None => raise JSONDecodeError
    | Some result =>
        ds ← lift (l ← getitem result "item_list";
                   items ← iterate l;
                   for_append directory_of_item items []);
        mret (VDirectories ds)
    end
  else mret VNone.

Definition set_panels (ps : list Panel) : M unit :=
  o ← get_self;
  set_self {| base_url := base_url o; client := client o;
              panels := ps; session_token := session_token o |}.

(** [self.panels.extend(ps)]. *)
Definition panels_extend (ps : list Panel) : M unit :=
  o ← get_self;
  set_panels (panels o ++ ps).

(** [for i in pages: body(i)]. *)
Fixpoint for_each (pages : list Z) (body : Z → M unit) : M unit :=
  match pages with
  | [] => mret tt
  | i :: rest => body i;; for_each rest body
  end.

(** The same loop around a local list that the body extends. *)
Fixpoint for_each_extend {A : Type} (pages : list Z) (body : Z → M (list A))
    (acc : list A) : M (list A) :=
  match pages with
  | [] => mret acc
  | i :: rest => xs ← body i; for_each_extend rest body (acc ++ xs)
  end.

Definition retrieve_panels : M (list Panel) :=
  set_panels [];;
  result ← request_instances "Lnl_Panel" 1 (-1);
  pageCount ← lift (getitem result "total_pages");
  ps ← lift (get_panels_from_result result);
  panels_extend ps;;
  pages ← lift (page_range pageCount);
  for_each pages (λ i,
    result ← request_instances "Lnl_Panel" i (-1);
    ps ← lift (get_panels_from_result result);
    panels_extend ps);;
  o ← get_self;
  mret (panels o).

Definition get_panels : M (list Panel) :=
  o ← get_self;
  mret (panels o).

Definition retrieve_readers (panelId : Z) : M (list Reader) :=
  let readers : list Reader := [] in
  result ← request_instances "Lnl_Reader" 1 panelId;
  count ← lift (getitem result "count");
  if py_eq_int count 0 then mret readers
  else
    pageCount ← lift (getitem result "total_pages");
    rs ← lift (get_readers_from_result result);
    let readers := (readers ++ rs)%list in
    pages ← lift (page_range pageCount);
    for_each_extend pages (λ i,
      result ← request_instances "Lnl_Reader" i panelId;
      lift (get_readers_from_result result)) readers.

(** [self.client.post(url, json=body)]. *)
Definition client_post (url : string) (body : json) : M Response :=
  o ← get_self;
  send {| req_method := POST; req_url := url;
          req_headers := headers (client o);
          req_verify := verify (client o);
          req_json := Some body |}.

(** [getattr(self.client, name)] for a name that is then called with a URL
    and a JSON body. *)
Definition session_getattr (name : string) : M (string → json → M Response) :=
  if String.eqb name "post" then mret client_post
  else if existsb (String.eqb name) session_attributes
       then mret (λ _ _, raise (TypeError "object is not callable with these arguments"))
       else raise (AttributeError name).

Definition OpenDoor (reader : ReaderObject) : M string :=
  let prop_value := JObj [("PanelID", JStr (pretty (panelId reader)));
                          ("ReaderID", JStr (pretty (id reader)))] in
  let parameter_value := JObj [] in
  let em := JObj [("method_name", JStr "OpenDoor");
                  ("type_name", JStr "Lnl_Reader");
                  ("property_value_map", prop_value);
                  ("in_parameter_value_map", parameter_value)] in
  post_json ← session_getattr "post_json";
  uri ← call_build_uri_with_version ["execute_method"];
  response ← post_json uri em;
  if status_code response =? 200 then mret (SUCCESS config)
  else
    mret ("A server error occurred during your request. If the status code is available, it is shown below"
          ++ newline ++ pretty (status_code response) ++ ": " ++ text response).

(** ** Statement vocabulary *)

(** The world after the call [r] has been made. *)
Definition logged (w : World) (r : Request) : World :=
  {| self := self w; sent := sent w ++ [r]; stdout := stdout w |}.

(** The JSON value the peer serves for a request that arrives after the
    requests [before], when it answers and the body decodes. *)
Definition served (before : list Request) (r : Request) : option json :=
  match transport before r with
  | Responds resp => s ← decode_utf8 (content resp); json_loads s
  | Fails _ => None
  end.

(** The URL of page [page_num] of an instance query, as the specification
    spells it. *)
Definition instances_url (base type : string) (page_num panel_id : Z) : string :=
  let unfiltered :=
    (base ++ "instances" ++ "?version=" ++ "1.0") ++
    "&type_name=" ++ type ++ "&page_number=" ++ pretty page_num ++
    "&page_size=" ++ DEFAULT_PAGE_SIZE config ++ "&order_by=name" in
  if decide (panel_id = -1) then unfiltered
  else unfiltered ++ "&filter=panelid = " ++ pretty panel_id.

Definition instances_request (o : OpenAccess) (type : string)
    (page_num panel_id : Z) : Request :=
  {| req_method := GET;
     req_url := instances_url (base_url o) type page_num panel_id;
     req_headers := headers (client o);
     req_verify := verify (client o);
     req_json := None |}.

(** The request [sign_in] posts. *)
Definition authentication_request (o : OpenAccess)
    (username password directory_id : string) : Request :=
  {| req_method := POST;
     req_url := base_url o ++ "authentication" ++ "?version=" ++ "1.0";
     req_headers := headers (client o);
     req_verify := false;
     req_json := Some (JObj [("user_name", JStr username);
                             ("password", JStr password);
                             ("directory_id", JStr directory_id)]) |}.

Definition directories_request (o : OpenAccess) : Request :=
  {| req_method := GET;
     req_url := base_url o ++ "directories" ++ "?version=" ++ "1.0";
     req_headers := headers (client o);
     req_verify := verify (client o);
     req_json := None |}.

(** An item of [item_list] carrying the four panel keys, and the record it
    stands for. *)
Definition panel_item (jo : json) (p : Panel) : Prop :=
  ∃ m o, getitem jo "property_value_map" = Ok m
       ∧ getitem m "ID" = Ok (panel_id p)
       ∧ getitem m "Name" = Ok (panel_name p)
       ∧ getitem m "IsOnline" = Ok o
       ∧ panel_status p = py_eq_int o py_True
       ∧ getitem m "PanelType" = Ok (panel_type p).

Definition directory_item (jo : json) (d : Directory) : Prop :=
  ∃ m, getitem jo "property_value_map" = Ok m
     ∧ getitem m "ID" = Ok (directory_Id d)
     ∧ getitem m "Name" = Ok (directory_Name d).

(** The world right after the authentication POST has been called. *)
Definition posted (w : World) (username password directory_id : string) : World :=
  {| self := self w;
     sent := sent w ++ [authentication_request (self w) username password directory_id];
     stdout := stdout w ++ [base_url (self w) ++ "authentication" ++ "?version=" ++ "1.0"] |}.

(** The object once [tok] has been stored and merged into the headers. *)
Definition authenticated (o : OpenAccess) (tok : json) : OpenAccess :=
  {| base_url := base_url o;
     client := {| headers := update_header "Session-Token" tok (headers (client o));
                  verify := verify (client o);
                  session_base_url := session_base_url (client o) |};
     panels := panels o;
     session_token := Some tok |}.

(** The object with its panel list replaced. *)
Definition with_panels (o : OpenAccess) (ps : list Panel) : OpenAccess :=
  {| base_url := base_url o; client := client o;
     panels := ps; session_token := session_token o |}.

(** The requests for the given pages of one instance query, in order. *)
Definition page_requests (o : OpenAccess) (type : string) (panel_id : Z)
    (pages : list Z) : list Request :=
  map (λ i, instances_request o type i panel_id) pages.

(** An item of [item_list] carrying the five reader keys, and the record it
    stands for. *)
Definition reader_item (jo : json) (r : Reader) : Prop :=
  ∃ m, getitem jo "property_value_map" = Ok m
     ∧ getitem m "PanelID" = Ok (reader_panelId r)
     ∧ getitem m "ReaderID" = Ok (reader_id r)
     ∧ getitem m "Name" = Ok (reader_name r)
     ∧ getitem m "ControlType" = Ok (reader_type r)
     ∧ getitem m "HostName" = Ok (reader_hostName r).

(** A GET as the session [c] sends it: its headers, its [verify], no body. *)
Definition session_get (c : Session) (r : Request) : Prop :=
  req_method r = GET
  ∧ req_headers r = headers c
  ∧ req_verify r = verify c
  ∧ req_json r = None.

(** Between [w] and [w'] nothing was printed and only session GETs were
    sent. *)
Definition gets_between (w w' : World) : Prop :=
  stdout w' = stdout w
  ∧ ∃ more : list Request,
      sent w' = (sent w ++ more)%list
      ∧ Forall (session_get (client (self w))) more.

(** ... and the client object is the same. *)
Definition reads_only (w w' : World) : Prop :=
  self w' = self w ∧ gets_between w w'.

(** ... and the client object is the same but for its panel list. *)
Definition caches_only (w w' : World) : Prop :=
  base_url (self w') = base_url (self w)
  ∧ client (self w') = client (self w)
  ∧ session_token (self w') = session_token (self w)
  ∧ gets_between w w'.

(** A computation that relates every world to the one it leaves behind,
    whether it returns or raises. *)
Definition preserves (R : World → World → Prop) {A : Type} (m : M A) : Prop :=
  ∀ w, R w (snd (m w)).

(** The URL of a cardholder query, written as one concatenation. *)
Definition cardholders_url (base : string) (autoload_badge : bool)
    (cardholder_filter badges_filter : option string) : string :=
  base ++ "cardholders" ++ "?version=" ++ "1.2"
  ++ (if autoload_badge then "&auto_load_badge=true" else "")
  ++ match cardholder_filter with
     | Some f => "&cardholder_filter=" ++ f
     | None => ""
     end
  ++ match badges_filter with
     | Some f => "&badges_filter=" ++ f
     | None => ""
     end.

Definition cardholders_request (o : OpenAccess) (autoload_badge : bool)
    (cardholder_filter badges_filter : option string) : Request :=
  {| req_method := GET;
     req_url := cardholders_url (base_url o) autoload_badge
                  cardholder_filter badges_filter;
     req_headers := headers (client o);
     req_verify := verify (client o);
     req_json := None |}.

(** The peer, reached after the requests [before], grants [tok] to the
    credentials: it answers the authentication POST of [o] with an ok
    response whose body decodes to an object holding [tok] under
    [session_token]. *)
Definition grants (before : list Request) (o : OpenAccess)
    (username password directory_id : string) (tok : json) : Prop :=
  ∃ response body result,
    transport before (authentication_request o username password directory_id)
      = Responds response
    ∧ ok response = true
    ∧ decode_utf8 (content response) = Some body
    ∧ json_loads body = Some result
    ∧ getitem result "session_token" = Ok tok.

(** One call of a method of the client (all but the static [instance]
    accessor), whatever it returns or raises. *)
Inductive step : World → World → Prop :=
  | step_sign_in (username password directory_id : string) (w : World) :
      step w (snd (sign_in username password directory_id w))
  | step_request_instances (type : string) (page_num panel_id : Z) (w : World) :
      step w (snd (request_instances type page_num panel_id w))
  | step_request_cardholder (autoload_badge has_badges : bool)
      (cardholder_filter badges_filter : option string) (w : World) :
      step w (snd (request_cardholder autoload_badge has_badges
                     cardholder_filter badges_filter w))
  | step_get_directories (w : World) :
      step w (snd (get_directories w))
  | step_retrieve_panels (w : World) :
      step w (snd (retrieve_panels w))
  | step_get_panels (w : World) :
      step w (snd (get_panels w))
  | step_retrieve_readers (panelId : Z) (w : World) :
      step w (snd (retrieve_readers panelId w))
  | step_OpenDoor (reader : ReaderObject) (w : World) :
      step w (snd (OpenDoor reader w))
  | step_build_uri_with_version (method_name version : string) (w : World) :
      step w (snd (build_uri_with_version method_name version w))
  | step_parse_response (response : Response) (w : World) :
      step w (snd (parse_response response w)).

(** The worlds a freshly constructed client can be brought to by calling
    its methods in any order. *)
Inductive reachable : World → Prop :=
  | reachable_fresh : reachable fresh_world
  | reachable_step (w w' : World) : reachable w → step w w' → reachable w'.

(** The number a finite Python float stands for. *)
Definition float_value (f : pyfloat) : option Q :=
  match f with
  | FNum m e => Some (inject_Z m * 2 ^ e)%Q
  | FInf _ => None
  | FNaN => None
  end.

(** [o == True] as Python defines it, said without the code: [o] is the
    boolean true, the integer 1, or a float whose value is 1. *)
Definition equals_True (o : json) : Prop :=
  o = JBool true
  ∨ o = JInt 1
  ∨ ∃ f q, o = JFloat f ∧ float_value f = Some q ∧ (q == 1)%Q.

(** An item of [item_list] carrying the four panel keys, and the record
    the specification gives for it: [status] is true exactly when
    IsOnline equals True. *)
Definition panel_entry (jo : json) (p : Panel) : Prop :=
  ∃ m o, getitem jo "property_value_map" = Ok m
       ∧ getitem m "ID" = Ok (panel_id p)
       ∧ getitem m "Name" = Ok (panel_name p)
       ∧ getitem m "IsOnline" = Ok o
       ∧ (panel_status p = true ↔ equals_True o)
       ∧ getitem m "PanelType" = Ok (panel_type p).

(** Header text that every version of [requests] and of [http.client]
    sends as it is: visible ASCII characters. *)
Definition visible (c : ascii) : bool :=
  let n := nat_of_ascii c in (33 <=? n)%nat && (n <=? 126)%nat.

Fixpoint plain_text (s : string) : bool :=
  match s with
  | EmptyString => true
  | String c rest => visible c && plain_text rest
  end.

(** What [requests] makes of one header value when it merges and prepares
    the headers of a call: a [None] is dropped ([Some None]), plain text
    goes out as it is.  For anything else the answer is [None]: a value
    that is not text makes [requests] refuse the call with [InvalidHeader]
    before anything is sent, and text beyond plain text is not modelled. *)
Definition goes_out_as (v : json) : option (option string) :=
  match v with
  | JNull => Some None
  | JStr s => if plain_text s then Some (Some s) else None
  | _ => None
  end.

(** Headers that [requests] prepares without complaint. *)
Definition accepted (h : gmap string (string * json)) : Prop :=
  ∀ k n v, h !! k = Some (n, v) → is_Some (goes_out_as v).

(** The text under which the prepared request has the header [name]. *)
Definition wire_header (name : string) (h : gmap string (string * json)) : option string :=
  match h !! lower name with
  | Some (_, v) =>
      match goes_out_as v with
      | Some o => o
      | None => None
      end
  | None => None
  end.

(** The call [r] is prepared without complaint and the request it sends
    has the header [name] with text [s]. *)
Definition carries (r : Request) (name s : string) : Prop :=
  accepted (req_headers r) ∧ wire_header name (req_headers r) = Some s.

(** The calls made from [before] to [after] are all GETs that carry the
    header [name] with text [s]. *)
Definition all_sent_with (name s : string) (before after : list Request) : Prop :=
  ∃ more : list Request,
    after = (before ++ more)%list
    ∧ Forall (λ r, req_method r = GET ∧ carries r name s) more.

(** ** Basic facts *)

Lemma bind_run {A B : Type} (m : M A) (f : A → M B) (w : World) :
  (m ≫= f) w = match m w with
               | (Ok a, w') => f a w'
               | (Raise e, w') => (Raise e, w')
               end.
Proof. reflexivity. Qed.

Lemma lift_run {A : Type} (r : res A) (w : World) : lift r w = (r, w).
Proof. reflexivity. Qed.

Lemma set_panels_run (ps : list Panel) (w : World) :
  set_panels ps w
    = (Ok tt, {| self := with_panels (self w) ps; sent := sent w; stdout := stdout w |}).
Proof. reflexivity. Qed.

Lemma panels_extend_run (ps : list Panel) (w : World) :
  panels_extend ps w
    = (Ok tt, {| self := with_panels (self w) (panels (self w) ++ ps);
                 sent := sent w; stdout := stdout w |}).
Proof. reflexivity. Qed.

Lemma prefix_app (s t : string) : String.prefix s (s ++ t) = true.
Proof.
  induction s as [|c s IH]; simpl.
  - by destruct t.
  - destruct (Ascii.ascii_dec c c); [apply IH | congruence].
Qed.

Lemma contains_prefix (needle hay : string) :
  String.prefix needle hay = true → contains needle hay = true.
Proof. intros H. destruct hay; simpl in *; rewrite H; done. Qed.

Lemma py_eq_int_bool (b : bool) : py_eq_int (JBool b) py_True = b.
Proof. by destruct b. Qed.

Lemma for_append_Forall2 {A : Type} (f : json → res A) (R : json → A → Prop)
    (items : list json) (xs acc : list A) :
  (∀ jo x, R jo x → f jo = Ok x) →
  Forall2 R items xs →
  for_append f items acc = Ok (acc ++ xs)%list.
Proof.
  intros Hf HR. revert acc.
  induction HR as [|jo x items xs Hx _ IH]; intros acc; simpl.
  - by rewrite app_nil_r.
  - rewrite (Hf _ _ Hx). simpl. rewrite IH, <- app_assoc. done.
Qed.

Lemma panel_of_item_ok (jo : json) (p : Panel) :
  panel_item jo p → panel_of_item jo = Ok p.
Proof.
  intros (m & o & Hm & Hi & Hn & Ho & Hs & Ht).
  unfold panel_of_item. rewrite Hm. simpl.
  rewrite Hi, Hn, Ho, Ht. simpl. rewrite <- Hs. by destruct p.
Qed.

Lemma directory_of_item_ok (jo : json) (d : Directory) :
  directory_item jo d → directory_of_item jo = Ok d.
Proof.
  intros (m & Hm & Hi & Hn).
  unfold directory_of_item. rewrite Hm. simpl.
  rewrite Hi, Hn. simpl. by destruct d.
Qed.

(** ** Record projector *)

Lemma float_eq_int_one (f : pyfloat) :
  float_eq_int f 1 = true ↔ ∃ q, float_value f = Some q ∧ (q == 1)%Q.
Proof.
  destruct f as [m e| |]; simpl.
  2,3: split; [discriminate|intros (q & H & _); discriminate].
  destruct (Z.leb_spec 0 e) as [He|He].
  - rewrite Z.eqb_eq. split.
    + intros H. eexists. split; [reflexivity|].
      change 2%Q with (inject_Z 2). rewrite <- Zpower_Qpower by lia.
      rewrite <- inject_Z_mult, H. reflexivity.
    + intros (q & [= <-] & H).
      change 2%Q with (inject_Z 2) in H. rewrite <- Zpower_Qpower in H by lia.
      rewrite <- inject_Z_mult in H. change 1%Q with (inject_Z 1) in H.
      by apply inject_Z_injective.
  - rewrite Z.eqb_eq.
    assert (Hpow : (2 ^ e == / inject_Z (2 ^ (- e)))%Q).
    { replace e with (- - e) at 1 by lia. rewrite Qpower_opp.
      change 2%Q with (inject_Z 2). rewrite <- Zpower_Qpower by lia. reflexivity. }
    assert (Hnz : ~ (inject_Z (2 ^ (- e)) == 0)%Q).
    { change 0%Q with (inject_Z 0). intros H0.
      pose proof (proj1 (inject_Z_injective _ _) H0) as H1.
      assert (0 < 2 ^ (- e)) by (apply Z.pow_pos_nonneg; lia). lia. }
    split.
    + intros H. eexists. split; [reflexivity|].
      rewrite Hpow, H, Z.mul_1_l. by apply Qmult_inv_r.
    + intros (q & [= <-] & H). rewrite Hpow in H.
      rewrite Z.mul_1_l. apply inject_Z_injective.
      rewrite <- (Qmult_1_l (inject_Z (2 ^ (- e)))), <- H.
      rewrite <- Qmult_assoc, (Qmult_comm (/ _)), Qmult_inv_r by done.
      by rewrite Qmult_1_r.
Qed.

Lemma py_eq_int_True_iff (o : json) :
  py_eq_int o py_True = true ↔ equals_True o.
Proof.
  unfold equals_True, py_True. destruct o as [|b|n|f|s|l|l]; simpl.
  - split; [discriminate|]. intros [H|[H|(f & q & H & _)]]; discriminate.
  - split.
    + destruct b; [by left|discriminate].
    + intros [[= ->]|[H|(f & q & H & _)]]; [done|discriminate|discriminate].
  - rewrite Z.eqb_eq. split.
    + intros ->. right. by left.
    + intros [H|[[= ->]|(f & q & H & _)]]; [discriminate|done|discriminate].
  - rewrite float_eq_int_one. split.
    + intros (q & Hq & H1). right. right. by exists f, q.
    + intros [H|[H|(f' & q & [= <-] & Hq & H1)]]; [discriminate|discriminate|].
      by exists q.
  - split; [discriminate|]. intros [H|[H|(f & q & H & _)]]; discriminate.
  - split; [discriminate|]. intros [H|[H|(f & q & H & _)]]; discriminate.
  - split; [discriminate|]. intros [H|[H|(f & q & H & _)]]; discriminate.
Qed.

Lemma panel_entry_item (jo : json) (p : Panel) :
  panel_entry jo p → panel_item jo p.
Proof.
  intros (m & o & Hm & Hi & Hn & Ho & Hs & Ht).
  exists m, o. repeat split; try done.
  rewrite <- py_eq_int_True_iff in Hs.
  destruct (panel_status p), (py_eq_int o py_True); try done.
  - symmetry. by apply Hs.
  - by apply Hs.
Qed.

(** C7: when every entry of [item_list] carries a [property_value_map] with
    the keys ID, Name, IsOnline and PanelType, the panel projector yields,
    entry by entry and in order, the record with [id] = ID, [name] = Name,
    [type] = PanelType and a [status] that is true exactly when IsOnline
    equals True (the boolean true, or a number equal to 1) and false for
    every other value. *)
Theorem get_panels_from_result_projects (result : json) (items : list json)
    (ps : list Panel) :
  getitem result "item_list" = Ok (JArr items) →
  Forall2 panel_entry items ps →
  get_panels_from_result result = Ok ps.
Proof.
  intros Hl Hitems. unfold get_panels_from_result.
  rewrite Hl. simpl.
  apply (for_append_Forall2 panel_of_item panel_entry items ps []);
    [|exact Hitems].
  intros jo p Hjo. by apply panel_of_item_ok, panel_entry_item.
Qed.

(** ** What one instance request does *)

Lemma request_instances_run (type : string) (page_num panel_id : Z) (w : World) :
  request_instances type page_num panel_id w =
    let req := instances_request (self w) type page_num panel_id in
    match transport (sent w) req with
    | Responds r => parse_response r (logged w req)
    | Fails e => (Raise (RequestException e), logged w req)
    end.
Proof.
  unfold request_instances, instances_request, instances_url, client_get,
    build_uri_with_version, get_self, send, logged, mbind, M_bind, mret, M_ret.
  simpl.
  destruct (decide (panel_id ≠ -1)) as [Hne|He], (decide (panel_id = -1)) as [He'|Hne'];
    try congruence; try (exfalso; apply He; assumption);
    simpl; destruct (transport _ _); reflexivity.
Qed.

Lemma request_instances_served (type : string) (page_num panel_id : Z)
    (w : World) (result : json) :
  served (sent w) (instances_request (self w) type page_num panel_id) = Some result →
  request_instances type page_num panel_id w
    = (Ok result, logged w (instances_request (self w) type page_num panel_id)).
Proof.
  intros H. rewrite request_instances_run. unfold served in H. simpl.
  destruct (transport _ _) as [r|e]; [|discriminate].
  unfold parse_response.
  destruct (decode_utf8 (content r)) as [s|]; [|discriminate]. simpl in H.
  rewrite H. reflexivity.
Qed.

(** ** Endpoint builder *)

Lemma append_assoc (s t u : string) : (s ++ t) ++ u = s ++ t ++ u.
Proof.
  induction s as [|c s IH]; [reflexivity|].
  change (String c ((s ++ t) ++ u) = String c (s ++ t ++ u)).
  by rewrite IH.
Qed.

Lemma instances_url_prefix (base type : string) (page_num panel_id : Z) :
  String.prefix (base ++ "instances" ++ "?version=" ++ "1.0")
                (instances_url base type page_num panel_id) = true.
Proof.
  unfold instances_url. cbv zeta. destruct (decide (panel_id = -1)).
  - apply prefix_app.
  - rewrite append_assoc. apply prefix_app.
Qed.

(** C6: [build_uri_with_version] returns exactly
    [base_url + method_name + "?version=" + version] and leaves the world
    alone; whatever fragments a caller appends, the result still starts
    with that text, and so does the URL of every request that
    [request_instances] sends. *)
Theorem build_uri_with_version_exact (method_name version : string) (w : World) :
  build_uri_with_version method_name version w
    = (Ok (base_url (self w) ++ method_name ++ "?version=" ++ version), w)
  ∧ (∀ fragments : string,
       ∃ uri : string,
         fst (build_uri_with_version method_name version w) = Ok uri
         ∧ String.prefix (base_url (self w) ++ method_name ++ "?version=" ++ version)
                         (uri ++ fragments) = true)
  ∧ (∀ (type : string) (page_num panel_id : Z),
       ∃ req : Request,
         snd (request_instances type page_num panel_id w) = logged w req
         ∧ String.prefix (base_url (self w) ++ "instances" ++ "?version=" ++ "1.0")
                         (req_url req) = true).
Proof.
  split; [reflexivity|]. split.
  - intros fragments. eexists. split; [reflexivity|]. apply prefix_app.
  - intros type page_num panel_id.
    exists (instances_request (self w) type page_num panel_id). split.
    + rewrite request_instances_run. simpl.
      destruct (transport _ _) as [r|e]; [|reflexivity].
      unfold parse_response.
      destruct (decode_utf8 (content r)) as [body|]; [|reflexivity].
      destruct (json_loads body); reflexivity.
    + apply instances_url_prefix.
Qed.

(** ** Session manager *)

Lemma sign_in_run (username password directory_id : string) (w : World) :
  sign_in username password directory_id w =
    let w1 := posted w username password directory_id in
    match transport (sent w)
            (authentication_request (self w) username password directory_id) with
    | Fails e =>
        (Ok ("Connection was unexpectedly closed. Make sure you don't have anything other than OpenAccess running on port 8080. Message: " ++ e), w1)
    | Responds response =>
        if ok response then
          match parse_response response w1 with
          | (Ok result, _) =>
              match getitem result "session_token" with
              | Ok tok =>
                  (Ok (SUCCESS config),
                   {| self := authenticated (self w) tok;
                      sent := sent w1; stdout := stdout w1 |})
              | Raise e => (Raise e, w1)
              end
          | (Raise e, _) => (Raise e, w1)
          end
        else
          (Ok ("A server error occurred during your request. If the status code is available, it is shown below"
               ++ newline ++ pretty (status_code response) ++ ": " ++ reason response), w1)
    end.
Proof.
  unfold sign_in, try_RequestException, requests_post, build_uri_with_version,
    print, get_self, send, posted, authentication_request,
    mbind, M_bind, mret, M_ret.
  simpl.
  destruct (transport _ _) as [response|e]; [|reflexivity].
  destruct (ok response); [|reflexivity].
  unfold parse_response.
  destruct (decode_utf8 (content response)) as [s|]; [|reflexivity].
  destruct (json_loads s) as [result|]; [|reflexivity].
  unfold mret, M_ret, lift.
  destruct (getitem result "session_token") as [tok|e]; reflexivity.
Qed.

Lemma client_get_run (url : string) (w : World) :
  snd (client_get url w)
    = logged w {| req_method := GET; req_url := url;
                  req_headers := headers (client (self w));
                  req_verify := verify (client (self w));
                  req_json := None |}.
Proof.
  unfold client_get, get_self, send, logged, mbind, M_bind. simpl.
  destruct (transport _ _); reflexivity.
Qed.

Lemma client_post_run (url : string) (body : json) (w : World) :
  snd (client_post url body w)
    = logged w {| req_method := POST; req_url := url;
                  req_headers := headers (client (self w));
                  req_verify := verify (client (self w));
                  req_json := Some body |}.
Proof.
  unfold client_post, get_self, send, logged, mbind, M_bind. simpl.
  destruct (transport _ _); reflexivity.
Qed.

Lemma header_update_eq (name : string) (v : json) (h : gmap string (string * json)) :
  header name (update_header name v h) = Some v.
Proof. unfold header, update_header. by rewrite lookup_insert_eq. Qed.

Lemma accepted_update (name : string) (v : json) (h : gmap string (string * json)) :
  is_Some (goes_out_as v) → accepted h → accepted (update_header name v h).
Proof.
  intros Hv Hh k n v' Hk. unfold update_header in Hk.
  apply lookup_insert_Some in Hk as [[_ [= <- <-]]|[_ Hk]]; [done|].
  by apply (Hh k n).
Qed.

Lemma wire_header_update (name : string) (v : json) (o : option string)
    (h : gmap string (string * json)) :
  goes_out_as v = Some o → wire_header name (update_header name v h) = o.
Proof.
  intros Hv. unfold wire_header, update_header.
  by rewrite lookup_insert_eq, Hv.
Qed.

Lemma carries_token (r : Request) (s : string) (h : gmap string (string * json)) :
  plain_text s = true → accepted h →
  req_headers r = update_header "Session-Token" (JStr s) h →
  carries r "Session-Token" s.
Proof.
  intros Hs Hh Hr. unfold carries. rewrite Hr.
  assert (Hout : goes_out_as (JStr s) = Some (Some s)) by (simpl; by rewrite Hs).
  split.
  - apply accepted_update; [by rewrite Hout|done].
  - by apply wire_header_update.
Qed.

Lemma accepted_init :
  plain_text (APPLICATION_ID config) = true → accepted (headers (client init)).
Proof.
  intros Happ k n v Hk. simpl in Hk. unfold update_header in Hk.
  apply lookup_insert_Some in Hk as [[_ [= <- <-]]|[_ Hk]]; [done|].
  apply lookup_insert_Some in Hk as [[_ [= <- <-]]|[_ Hk]]; [done|].
  apply lookup_insert_Some in Hk as [[_ [= <- <-]]|[_ Hk]]; [|done].
  simpl. by rewrite Happ.
Qed.

(** C1 (as amended): when the authentication POST meets an ok response
    whose body decodes to an object with the key [session_token],
    [sign_in] returns the success marker, the object stores that token and
    its header set maps [Session-Token] to it, whatever JSON value the
    token is; when the token is plain text and the session's headers were
    acceptable to [requests] before, every call the session makes
    afterwards is prepared without complaint and sends [Session-Token] with
    that text.  A freshly constructed client stores no token and has no
    such header. *)
Theorem sign_in_success (username password directory_id : string) (w : World)
    (response : Response) (body : string) (result tok : json) :
  transport (sent w) (authentication_request (self w) username password directory_id)
    = Responds response →
  ok response = true →
  decode_utf8 (content response) = Some body →
  json_loads body = Some result →
  getitem result "session_token" = Ok tok →
  ∃ w', sign_in username password directory_id w = (Ok (SUCCESS config), w')
      ∧ session_token (self w') = Some tok
      ∧ header "Session-Token" (headers (client (self w'))) = Some tok
      ∧ (∀ s : string,
           tok = JStr s →
           plain_text s = true →
           accepted (headers (client (self w))) →
           ∀ (w'' : World) (url : string) (payload : json),
             client (self w'') = client (self w') →
             (∃ req, snd (client_get url w'') = logged w'' req
                   ∧ carries req "Session-Token" s)
           ∧ (∃ req, snd (client_post url payload w'') = logged w'' req
                   ∧ carries req "Session-Token" s))
      ∧ session_token init = None
      ∧ header "Session-Token" (headers (client init)) = None.
Proof.
  intros Ht Hok Hd Hl Hk.
  eexists. split.
  { rewrite sign_in_run. simpl. rewrite Ht, Hok.
    unfold parse_response. rewrite Hd, Hl. unfold mret, M_ret.
    rewrite Hk. reflexivity. }
  simpl. split; [reflexivity|]. split; [apply header_update_eq|].
  split; [|split; reflexivity].
  intros s -> Hs Hacc w'' url payload Hc. split; eexists; split;
    try apply client_get_run; try apply client_post_run;
    apply (carries_token _ s (headers (client (self w)))); try done;
    simpl; by rewrite Hc.
Qed.

(** C2 (as amended): on a connection-level failure, on an HTTP error
    response, and on an ok response whose body decodes to an object with
    the key [session_token], [sign_in] returns a string and raises
    nothing. *)
Theorem sign_in_returns_string (username password directory_id : string) (w : World) :
  (∀ response,
     transport (sent w)
       (authentication_request (self w) username password directory_id)
       = Responds response →
     ok response = true →
     ∃ body result tok,
       decode_utf8 (content response) = Some body
       ∧ json_loads body = Some result
       ∧ getitem result "session_token" = Ok tok) →
  ∃ msg : string, fst (sign_in username password directory_id w) = Ok msg.
Proof.
  intros Hbody. rewrite sign_in_run. simpl.
  destruct (transport _ _) as [response|e] eqn:Ht; [|by eexists].
  destruct (ok response) eqn:Hok; [|by eexists].
  destruct (Hbody response eq_refl Hok) as (body & result & tok & Hd & Hl & Hk).
  unfold parse_response. rewrite Hd, Hl. unfold mret, M_ret. rewrite Hk.
  by eexists.
Qed.

(** C8: when the POST of [sign_in] fails at the connection level, [sign_in]
    raises nothing and returns the text that starts with "Connection",
    names port 8080 as the likely conflict and ends with the message of
    the failure. *)
Theorem sign_in_connection_failure (username password directory_id : string)
    (w : World) (e : string) :
  transport (sent w) (authentication_request (self w) username password directory_id)
    = Fails e →
  ∃ msg : string,
    sign_in username password directory_id w
      = (Ok msg, posted w username password directory_id)
    ∧ contains "Connection" msg = true
    ∧ contains "running on port 8080" msg = true
    ∧ msg = "Connection was unexpectedly closed. Make sure you don't have anything other than OpenAccess running on port 8080. Message: " ++ e.
Proof.
  intros Ht. eexists. split; [|split; [|split]]; [| | |reflexivity].
  - rewrite sign_in_run. simpl. rewrite Ht. reflexivity.
  - reflexivity.
  - reflexivity.
Qed.

(** C9: a [sign_in] that fails, by a connection-level exception or by a
    response that is not ok, leaves the client object as it was; on a
    freshly constructed client no token is stored afterwards, there is no
    [Session-Token] header, and the header set is the three entries of the
    constructor. *)
Theorem sign_in_failure_atomic (username password directory_id : string) (w : World) :
  ((∃ e, transport (sent w)
           (authentication_request (self w) username password directory_id)
           = Fails e)
   ∨ (∃ response,
        transport (sent w)
          (authentication_request (self w) username password directory_id)
          = Responds response
        ∧ ok response = false)) →
  let w' := snd (sign_in username password directory_id w) in
  self w' = self w
  ∧ (self w = init →
       session_token (self w') = None
       ∧ header "Session-Token" (headers (client (self w'))) = None
       ∧ headers (client (self w'))
           = {[ "accept" := ("Accept", JStr "application/json");
                "content-type" := ("Content-Type", JStr "application/json");
                "application-id" := ("Application-Id", JStr (APPLICATION_ID config)) ]}).
Proof.
  intros Hfail. simpl.
  assert (Hself : self (snd (sign_in username password directory_id w)) = self w).
  { rewrite sign_in_run. simpl.
    destruct Hfail as [[e Ht]|(response & Ht & Hok)]; rewrite Ht; [reflexivity|].
    rewrite Hok. reflexivity. }
  split; [exact Hself|].
  intros Hinit. rewrite Hself, Hinit. repeat split.
Qed.

(** ** Pagination aggregator *)

Lemma instances_request_with_panels (o : OpenAccess) (ps : list Panel)
    (type : string) (i panel_id : Z) :
  instances_request (with_panels o ps) type i panel_id
    = instances_request o type i panel_id.
Proof. reflexivity. Qed.

Lemma page_requests_length (o : OpenAccess) (type : string) (panel_id N : Z) :
  length (page_requests o type panel_id (seqZ 1 N)) = Z.to_nat N.
Proof. unfold page_requests. by rewrite length_map, length_seqZ. Qed.

Lemma page_requests_cons (o : OpenAccess) (type : string) (panel_id : Z)
    (a n : Z) :
  0 < n →
  page_requests o type panel_id (seqZ a n)
    = instances_request o type a panel_id
      :: page_requests o type panel_id (seqZ (Z.succ a) (Z.pred n)).
Proof. intros Hn. unfold page_requests. by rewrite seqZ_cons. Qed.

Lemma readers_loop (panelId : Z) (page : Z → json) (items : Z → list Reader)
    (n : nat) :
  ∀ (a : Z) (acc : list Reader) (w : World),
    (∀ i, a ≤ i < a + Z.of_nat n →
       served (sent w ++ page_requests (self w) "Lnl_Reader" panelId (seqZ a (i - a)))
              (instances_request (self w) "Lnl_Reader" i panelId) = Some (page i)) →
    (∀ i, a ≤ i < a + Z.of_nat n → get_readers_from_result (page i) = Ok (items i)) →
    for_each_extend (seqZ a (Z.of_nat n))
      (λ i, result ← request_instances "Lnl_Reader" i panelId;
            lift (get_readers_from_result result)) acc w
    = (Ok (acc ++ concat (map items (seqZ a (Z.of_nat n))))%list,
       {| self := self w;
          sent := sent w ++ page_requests (self w) "Lnl_Reader" panelId (seqZ a (Z.of_nat n));
          stdout := stdout w |}).
Proof.
  induction n as [|n IH]; intros a acc w Hserved Hitems.
  - simpl. unfold mret, M_ret. rewrite !app_nil_r. by destruct w.
  - rewrite page_requests_cons, seqZ_cons by lia.
    replace (Z.pred (Z.of_nat (S n))) with (Z.of_nat n) by lia.
    simpl for_each_extend.
    rewrite bind_run, bind_run.
    rewrite (request_instances_served _ _ _ _ (page a)).
    + cbv beta iota. rewrite lift_run, (Hitems a) by lia. cbv beta iota.
      rewrite IH.
      * simpl. rewrite <- !app_assoc. reflexivity.
      * intros i Hi. simpl. rewrite <- app_assoc. simpl.
        specialize (Hserved i ltac:(lia)).
        rewrite page_requests_cons in Hserved by lia.
        by replace (i - Z.succ a) with (Z.pred (i - a)) by lia.
      * intros i Hi. apply Hitems. lia.
    + specialize (Hserved a ltac:(lia)).
      replace (a - a) with 0 in Hserved by lia.
      simpl in Hserved. by rewrite app_nil_r in Hserved.
Qed.

Lemma panels_loop (page : Z → json) (items : Z → list Panel) (n : nat) :
  ∀ (a : Z) (w : World),
    (∀ i, a ≤ i < a + Z.of_nat n →
       served (sent w ++ page_requests (self w) "Lnl_Panel" (-1) (seqZ a (i - a)))
              (instances_request (self w) "Lnl_Panel" i (-1)) = Some (page i)) →
    (∀ i, a ≤ i < a + Z.of_nat n → get_panels_from_result (page i) = Ok (items i)) →
    for_each (seqZ a (Z.of_nat n))
      (λ i, result ← request_instances "Lnl_Panel" i (-1);
            ps ← lift (get_panels_from_result result);
            panels_extend ps) w
    = (Ok tt,
       {| self := with_panels (self w) (panels (self w) ++ concat (map items (seqZ a (Z.of_nat n))));
          sent := sent w ++ page_requests (self w) "Lnl_Panel" (-1) (seqZ a (Z.of_nat n));
          stdout := stdout w |}).
Proof.
  induction n as [|n IH]; intros a w Hserved Hitems.
  - simpl. unfold mret, M_ret. rewrite !app_nil_r. by destruct w as [[] ? ?].
  - rewrite page_requests_cons, seqZ_cons by lia.
    replace (Z.pred (Z.of_nat (S n))) with (Z.of_nat n) by lia.
    simpl for_each.
    rewrite bind_run, bind_run.
    rewrite (request_instances_served _ _ _ _ (page a)).
    + cbv beta iota. rewrite bind_run, lift_run, (Hitems a) by lia.
      cbv beta iota. rewrite panels_extend_run.
      rewrite IH.
      * simpl. unfold with_panels. simpl. rewrite <- !app_assoc. reflexivity.
      * intros i Hi. simpl. rewrite <- app_assoc. simpl.
        specialize (Hserved i ltac:(lia)).
        rewrite page_requests_cons in Hserved by lia.
        by replace (i - Z.succ a) with (Z.pred (i - a)) by lia.
      * intros i Hi. apply Hitems. lia.
    + specialize (Hserved a ltac:(lia)).
      replace (a - a) with 0 in Hserved by lia.
      simpl in Hserved. by rewrite app_nil_r in Hserved.
Qed.

(** C5: when the first page of a reader query reports a count equal to 0,
    [retrieve_readers] returns the empty list after exactly one request,
    the one for page 1 (carrying the panel filter when one is given). *)
Theorem retrieve_readers_zero_count (panelId : Z) (w : World) (result count : json) :
  served (sent w) (instances_request (self w) "Lnl_Reader" 1 panelId) = Some result →
  getitem result "count" = Ok count →
  py_eq_int count 0 = true →
  retrieve_readers panelId w
    = (Ok [], logged w (instances_request (self w) "Lnl_Reader" 1 panelId))
  ∧ (panelId ≠ -1 →
     ∃ unfiltered : string,
       req_url (instances_request (self w) "Lnl_Reader" 1 panelId)
         = unfiltered ++ "&filter=panelid = " ++ pretty panelId).
Proof.
  intros Hserved Hcount Hzero. split.
  - unfold retrieve_readers. unfold mbind at 1, M_bind at 1.
    rewrite (request_instances_served _ _ _ _ result Hserved).
    unfold mbind at 1, M_bind at 1, lift at 1. rewrite Hcount, Hzero.
    reflexivity.
  - intros Hne. simpl. unfold instances_url.
    destruct (decide (panelId = -1)); [done|].
    eexists. reflexivity.
Qed.

(** C4: when page 1 of an instance query reports [total_pages] = N with
    N >= 1, the request for each page i from 1 to N, arriving after those
    for pages 1 to i-1, is served a page that projects, and (for readers)
    page 1 does not report a count equal to 0, [retrieve_panels] and
    [retrieve_readers] each send exactly the N requests for pages
    1, 2, ..., N in that order and return the projected items of all pages
    concatenated in page order; [retrieve_panels] also leaves that list in
    [self.panels]. *)
Theorem retrieve_all_pages (w : World) (N : Z) :
  1 ≤ N →
  (∀ (page : Z → json) (items : Z → list Panel),
     (∀ i, 1 ≤ i ≤ N →
        served (sent w ++ page_requests (self w) "Lnl_Panel" (-1) (seqZ 1 (i - 1)))
               (instances_request (self w) "Lnl_Panel" i (-1)) = Some (page i)) →
     getitem (page 1) "total_pages" = Ok (JInt N) →
     (∀ i, 1 ≤ i ≤ N → get_panels_from_result (page i) = Ok (items i)) →
     retrieve_panels w
       = (Ok (concat (map items (seqZ 1 N))),
          {| self := with_panels (self w) (concat (map items (seqZ 1 N)));
             sent := sent w ++ page_requests (self w) "Lnl_Panel" (-1) (seqZ 1 N);
             stdout := stdout w |})
     ∧ length (page_requests (self w) "Lnl_Panel" (-1) (seqZ 1 N)) = Z.to_nat N)
  ∧ (∀ (panelId : Z) (page : Z → json) (items : Z → list Reader) (count : json),
       (∀ i, 1 ≤ i ≤ N →
          served (sent w ++ page_requests (self w) "Lnl_Reader" panelId (seqZ 1 (i - 1)))
                 (instances_request (self w) "Lnl_Reader" i panelId) = Some (page i)) →
       getitem (page 1) "total_pages" = Ok (JInt N) →
       getitem (page 1) "count" = Ok count →
       py_eq_int count 0 = false →
       (∀ i, 1 ≤ i ≤ N → get_readers_from_result (page i) = Ok (items i)) →
       retrieve_readers panelId w
         = (Ok (concat (map items (seqZ 1 N))),
            {| self := self w;
               sent := sent w ++ page_requests (self w) "Lnl_Reader" panelId (seqZ 1 N);
               stdout := stdout w |})
       ∧ length (page_requests (self w) "Lnl_Reader" panelId (seqZ 1 N)) = Z.to_nat N).
Proof.
  intros HN. split.
  - intros page items Hserved Htotal Hitems.
    split; [|apply page_requests_length].
    unfold retrieve_panels.
    rewrite bind_run, set_panels_run. cbv beta iota.
    rewrite bind_run, (request_instances_served _ _ _ _ (page 1)).
    2:{ specialize (Hserved 1 ltac:(lia)). simpl in Hserved.
        by rewrite app_nil_r in Hserved. }
    cbv beta iota.
    rewrite bind_run, lift_run, Htotal. cbv beta iota.
    rewrite bind_run, lift_run, (Hitems 1) by lia. cbv beta iota.
    rewrite bind_run, panels_extend_run. cbv beta iota.
    rewrite bind_run, lift_run. simpl page_range. cbv beta iota.
    replace (N + 1 - 2) with (Z.of_nat (Z.to_nat (N - 1))) by lia.
    rewrite bind_run, (panels_loop page items).
    + cbv beta iota. rewrite bind_run. unfold get_self, mret, M_ret.
      cbv beta iota. unfold logged, with_panels. simpl.
      rewrite (page_requests_cons _ _ _ 1 N) by lia.
      rewrite (seqZ_cons 1 N) by lia.
      replace (Z.pred N) with (Z.of_nat (Z.to_nat (N - 1))) by lia.
      simpl. rewrite <- !app_assoc. reflexivity.
    + intros i Hi. simpl. rewrite <- app_assoc. simpl.
      specialize (Hserved i ltac:(lia)).
      rewrite page_requests_cons in Hserved by lia.
      by replace (i - 2) with (Z.pred (i - 1)) by lia.
    + intros i Hi. apply Hitems. lia.
  - intros panelId page items count Hserved Htotal Hcount Hnz Hitems.
    split; [|apply page_requests_length].
    unfold retrieve_readers.
    rewrite bind_run, (request_instances_served _ _ _ _ (page 1)).
    2:{ specialize (Hserved 1 ltac:(lia)). simpl in Hserved.
        by rewrite app_nil_r in Hserved. }
    cbv beta iota.
    rewrite bind_run, lift_run, Hcount. cbv beta iota. rewrite Hnz.
    rewrite bind_run, lift_run, Htotal. cbv beta iota.
    rewrite bind_run, lift_run, (Hitems 1) by lia. cbv beta iota.
    rewrite bind_run, lift_run. simpl page_range. cbv beta iota.
    replace (N + 1 - 2) with (Z.of_nat (Z.to_nat (N - 1))) by lia.
    rewrite (readers_loop panelId page items).
    + simpl.
      rewrite (page_requests_cons _ _ _ 1 N) by lia.
      rewrite (seqZ_cons 1 N) by lia.
      replace (Z.pred N) with (Z.of_nat (Z.to_nat (N - 1))) by lia.
      simpl. rewrite <- !app_assoc. reflexivity.
    + intros i Hi. simpl. rewrite <- app_assoc. simpl.
      specialize (Hserved i ltac:(lia)).
      rewrite page_requests_cons in Hserved by lia.
      by replace (i - 2) with (Z.pred (i - 1)) by lia.
    + intros i Hi. apply Hitems. lia.
Qed.

(** ** Directories *)

Lemma get_directories_run (w : World) :
  get_directories w =
    let req := directories_request (self w) in
    match transport (sent w) req with
    | Fails e => (Raise (RequestException e), logged w req)
    | Responds response =>
        if status_code response =? 200 then
          match json_loads (text response) with
          | None => (Raise JSONDecodeError, logged w req)
          | Some result =>
              match (l ← getitem result "item_list";
                     items ← iterate l;
                     for_append directory_of_item items []) with
              | Ok ds => (Ok (VDirectories ds), logged w req)
              | Raise e => (Raise e, logged w req)
              end
          end
        else (Ok VNone, logged w req)
    end.
Proof.
  unfold get_directories, build_uri_with_version, client_get, get_self, send,
    directories_request, logged.
  rewrite !bind_run. unfold mret at 1, M_ret at 1. cbv beta iota.
  rewrite !bind_run. cbv beta iota. simpl.
  destruct (transport _ _) as [response|e]; [|reflexivity].
  destruct (status_code response =? 200); [|reflexivity].
  destruct (json_loads (text response)) as [result|]; [|reflexivity].
  rewrite bind_run, lift_run.
  match goal with |- context [match ?r with Ok _ => _ | Raise _ => _ end] =>
    destruct r end; reflexivity.
Qed.

(** C10: [get_directories] never returns a string; when the peer answers,
    it returns [None] exactly when the status code is not 200, and on a 200
    response whose body holds an [item_list] of entries with a
    [property_value_map] carrying ID and Name it returns, entry by entry,
    the record with [Id] = ID and [Name] = Name. *)
Theorem get_directories_none_iff (w : World) :
  (∀ s : string, fst (get_directories w) ≠ Ok (VStr s))
  ∧ ∀ response : Response,
      transport (sent w) (directories_request (self w)) = Responds response →
      (fst (get_directories w) = Ok VNone ↔ status_code response ≠ 200)
      ∧ ∀ (result : json) (items : list json) (ds : list Directory),
          status_code response = 200 →
          json_loads (text response) = Some result →
          getitem result "item_list" = Ok (JArr items) →
          Forall2 directory_item items ds →
          get_directories w
            = (Ok (VDirectories ds), logged w (directories_request (self w)))
          ∧ length ds = length items.
Proof.
  split.
  - intros s. rewrite get_directories_run. simpl.
    destruct (transport _ _) as [response|e]; [|done].
    destruct (status_code response =? 200); [|done].
    destruct (json_loads (text response)) as [result|]; [|done].
    match goal with |- context [match ?r with Ok _ => _ | Raise _ => _ end] =>
      destruct r end; done.
  - intros response Ht. rewrite get_directories_run. simpl. rewrite Ht. split.
    + destruct (Z.eqb_spec (status_code response) 200) as [He|Hne].
      * split; [|done].
        destruct (json_loads (text response)) as [result|]; [|done].
        match goal with |- context [match ?r with Ok _ => _ | Raise _ => _ end] =>
          destruct r end; done.
      * done.
    + intros result items ds H200 Hl Hk Hitems.
      rewrite H200, Hl. simpl. rewrite Hk. simpl.
      rewrite (for_append_Forall2 directory_of_item directory_item items ds []);
        [|apply directory_of_item_ok|exact Hitems].
      split; [reflexivity|]. symmetry. by eapply Forall2_length.
Qed.

(** ** Command executor *)

Lemma call_build_uri_with_version_one_argument (method_name : string) (w : World) :
  ∃ what, call_build_uri_with_version [method_name] w = (Raise (TypeError what), w).
Proof. by eexists. Qed.

(** C3 (what the code does): for every reader, every world and every
    peer, [OpenDoor] raises [AttributeError] for [post_json] before
    anything is sent; it neither posts the envelope nor returns a result. *)
Theorem OpenDoor_raises (reader : ReaderObject) (w : World) :
  OpenDoor reader w = (Raise (AttributeError "post_json"), w)
  ∧ sent (snd (OpenDoor reader w)) = sent w
  ∧ ∀ result : string, fst (OpenDoor reader w) ≠ Ok result.
Proof.
  assert (H : OpenDoor reader w = (Raise (AttributeError "post_json"), w))
    by reflexivity.
  rewrite H. by repeat split.
Qed.

(** ** Projectors, characterised *)

Lemma for_append_ok_iff {A : Type} (f : json → res A) (items : list json)
    (acc xs : list A) :
  for_append f items acc = Ok xs
  ↔ ∃ ys, xs = (acc ++ ys)%list ∧ Forall2 (λ jo x, f jo = Ok x) items ys.
Proof.
  split.
  - revert acc. induction items as [|jo items IH]; intros acc H; simpl in H.
    + injection H as <-. exists []. split; [by rewrite app_nil_r|constructor].
    + destruct (f jo) as [x|e] eqn:Hx; simpl in H; [|discriminate].
      destruct (IH _ H) as (ys & -> & Hys).
      exists (x :: ys). split; [by rewrite <- app_assoc|by constructor].
  - intros (ys & -> & Hys).
    by apply (for_append_Forall2 f (λ jo x, f jo = Ok x)).
Qed.

Lemma for_append_raise {A : Type} (f : json → res A) (R : json → A → Prop)
    (good : list json) (bad : json) (rest : list json) (xs acc : list A) (e : exn) :
  (∀ jo x, R jo x → f jo = Ok x) →
  Forall2 R good xs →
  f bad = Raise e →
  for_append f (good ++ bad :: rest) acc = Raise e.
Proof.
  intros Hf Hgood Hbad. revert acc.
  induction Hgood as [|jo x good xs Hx _ IH]; intros acc; simpl.
  - by rewrite Hbad.
  - rewrite (Hf _ _ Hx). simpl. apply IH.
Qed.

Lemma panel_of_item_iff (jo : json) (p : Panel) :
  panel_of_item jo = Ok p ↔ panel_item jo p.
Proof.
  split; [|apply panel_of_item_ok].
  unfold panel_of_item, panel_item. intros H.
  destruct (getitem jo "property_value_map") as [m|] eqn:Hm; [|discriminate].
  simpl in H.
  destruct (getitem m "ID") as [i|] eqn:Hi; [|discriminate]. simpl in H.
  destruct (getitem m "Name") as [n|] eqn:Hn; [|discriminate]. simpl in H.
  destruct (getitem m "IsOnline") as [o|] eqn:Ho; [|discriminate]. simpl in H.
  destruct (getitem m "PanelType") as [t|] eqn:Ht; [|discriminate]. simpl in H.
  injection H as <-. exists m, o. by repeat split.
Qed.

Lemma reader_of_item_iff (jo : json) (r : Reader) :
  reader_of_item jo = Ok r ↔ reader_item jo r.
Proof.
  unfold reader_of_item, reader_item. split.
  - intros H.
    destruct (getitem jo "property_value_map") as [m|] eqn:Hm; [|discriminate].
    simpl in H.
    destruct (getitem m "PanelID") as [p|] eqn:Hp; [|discriminate]. simpl in H.
    destruct (getitem m "ReaderID") as [i|] eqn:Hi; [|discriminate]. simpl in H.
    destruct (getitem m "Name") as [n|] eqn:Hn; [|discriminate]. simpl in H.
    destruct (getitem m "ControlType") as [t|] eqn:Ht; [|discriminate]. simpl in H.
    destruct (getitem m "HostName") as [h|] eqn:Hh; [|discriminate]. simpl in H.
    injection H as <-. exists m. by repeat split.
  - intros (m & Hm & Hp & Hi & Hn & Ht & Hh).
    rewrite Hm. simpl. rewrite Hp, Hi, Hn, Ht, Hh. simpl. by destruct r.
Qed.

Lemma Forall2_iff_pointwise {A B : Type} (P Q : A → B → Prop) (l : list A) (k : list B) :
  (∀ a b, P a b ↔ Q a b) → Forall2 P l k ↔ Forall2 Q l k.
Proof.
  intros HPQ. split; intros H; induction H; constructor; try assumption;
    by apply HPQ.
Qed.

(** X1: the reader projector returns a list exactly when [item_list] is
    there, can be iterated, and each of its entries carries a
    [property_value_map] with PanelID, ReaderID, Name, ControlType and
    HostName; the list then holds one record per entry, in order. *)
Theorem get_readers_from_result_ok_iff (result : json) (rs : list Reader) :
  get_readers_from_result result = Ok rs
  ↔ ∃ l items, getitem result "item_list" = Ok l
             ∧ iterate l = Ok items
             ∧ Forall2 reader_item items rs.
Proof.
  unfold get_readers_from_result. split.
  - intros H.
    destruct (getitem result "item_list") as [l|] eqn:Hl; [|discriminate].
    simpl in H.
    destruct (iterate l) as [items|] eqn:Hit; [|discriminate]. simpl in H.
    apply for_append_ok_iff in H as (ys & -> & Hys).
    exists l, items. split; [done|]. split; [done|].
    simpl. by apply (Forall2_iff_pointwise _ _ _ _ reader_of_item_iff).
  - intros (l & items & -> & Hit & Hrs). simpl. rewrite Hit. simpl.
    apply for_append_ok_iff. exists rs. split; [done|].
    by apply (Forall2_iff_pointwise _ _ _ _ reader_of_item_iff).
Qed.

(** X2: whenever the panel projector returns a list, [item_list] was there
    and iterable, every entry carried the four panel keys, and the list is
    the entries' records in order, as many as there were entries. *)
Theorem get_panels_from_result_ok_inv (result : json) (ps : list Panel) :
  get_panels_from_result result = Ok ps →
  ∃ l items, getitem result "item_list" = Ok l
           ∧ iterate l = Ok items
           ∧ Forall2 panel_item items ps
           ∧ length ps = length items.
Proof.
  unfold get_panels_from_result. intros H.
  destruct (getitem result "item_list") as [l|] eqn:Hl; [|discriminate].
  simpl in H.
  destruct (iterate l) as [items|] eqn:Hit; [|discriminate]. simpl in H.
  apply for_append_ok_iff in H as (ys & -> & Hys).
  apply (Forall2_iff_pointwise _ _ _ _ panel_of_item_iff) in Hys.
  exists l, items. repeat split; try done.
  symmetry. by eapply Forall2_length.
Qed.

(** X3: one entry that does not project makes the whole projection raise
    that entry's exception, whatever comes before or after it; no partial
    list comes back.  This holds for the panel and for the reader
    projector. *)
Theorem projection_stops_at_first_bad_item (result : json)
    (good : list json) (bad : json) (rest : list json) (e : exn) :
  getitem result "item_list" = Ok (JArr (good ++ bad :: rest)) →
  (∀ ps, Forall2 panel_item good ps → panel_of_item bad = Raise e →
         get_panels_from_result result = Raise e)
  ∧ (∀ rs, Forall2 reader_item good rs → reader_of_item bad = Raise e →
           get_readers_from_result result = Raise e).
Proof.
  intros Hl. split.
  - intros ps Hgood Hbad. unfold get_panels_from_result. rewrite Hl. simpl.
    apply (for_append_raise panel_of_item panel_item good bad rest ps);
      [apply panel_of_item_ok|done|done].
  - intros rs Hgood Hbad. unfold get_readers_from_result. rewrite Hl. simpl.
    apply (for_append_raise reader_of_item reader_item good bad rest rs);
      [intros; by apply reader_of_item_iff|done|done].
Qed.

(** ** Session manager, every outcome *)

Lemma prefix_refl (s : string) : String.prefix s s = true.
Proof.
  induction s as [|c s IH]; simpl; [done|].
  destruct (Ascii.ascii_dec c c); [apply IH | congruence].
Qed.

Lemma contains_suffix (needle pre : string) :
  contains needle (pre ++ needle) = true.
Proof.
  induction pre as [|c pre IH].
  - change (contains needle needle = true).
    apply contains_prefix, prefix_refl.
  - change (contains needle (String c (pre ++ needle)) = true).
    simpl. rewrite IH. apply orb_true_r.
Qed.

Lemma ok_iff (r : Response) :
  ok r = true ↔ status_code r < 400 ∨ 600 ≤ status_code r.
Proof.
  unfold ok.
  destruct (Z.leb_spec 400 (status_code r)) as [Hlo|Hlo],
           (Z.ltb_spec (status_code r) 600) as [Hhi|Hhi];
    simpl; split; intros Hok; try done; try lia.
Qed.

Lemma authenticated_again (o : OpenAccess) (tok1 tok2 : json) :
  authenticated (authenticated o tok1) tok2 = authenticated o tok2.
Proof.
  unfold authenticated, update_header. simpl. by rewrite insert_insert_eq.
Qed.

Lemma sign_in_granted (username password directory_id : string) (w : World)
    (tok : json) :
  grants (sent w) (self w) username password directory_id tok →
  sign_in username password directory_id w
    = (Ok (SUCCESS config),
       {| self := authenticated (self w) tok;
          sent := (sent w ++ [authentication_request (self w) username password directory_id])%list;
          stdout := (stdout w ++ [(base_url (self w) ++ "authentication" ++ "?version=" ++ "1.0")%string])%list |}).
Proof.
  intros (response & body & result & Ht & Hok & Hd & Hl & Hk).
  rewrite sign_in_run. simpl. rewrite Ht, Hok.
  unfold parse_response. rewrite Hd, Hl. unfold mret, M_ret. by rewrite Hk.
Qed.

Lemma sign_in_sent (username password directory_id : string) (w : World) :
  sent (snd (sign_in username password directory_id w))
    = (sent w ++ [authentication_request (self w) username password directory_id])%list.
Proof.
  rewrite sign_in_run. simpl.
  destruct (transport _ _) as [response|e]; [|done].
  destruct (ok response); [|done].
  unfold parse_response.
  destruct (decode_utf8 (content response)) as [body|]; [|done].
  destruct (json_loads body) as [result|]; [|done].
  unfold mret, M_ret.
  by destruct (getitem result "session_token").
Qed.

Lemma sign_in_effects_self (username password directory_id : string) (w : World) :
  self (snd (sign_in username password directory_id w)) = self w
  ∨ ∃ tok, self (snd (sign_in username password directory_id w))
           = authenticated (self w) tok.
Proof.
  rewrite sign_in_run. simpl.
  destruct (transport _ _) as [response|e]; [|by left].
  destruct (ok response); [|by left].
  unfold parse_response.
  destruct (decode_utf8 (content response)) as [body|]; [|by left].
  destruct (json_loads body) as [result|]; [|by left].
  unfold mret, M_ret.
  destruct (getitem result "session_token") as [tok|e]; [|by left].
  right. by exists tok.
Qed.

(** X4: whatever comes back, one call of [sign_in] makes exactly one call
    into [requests], the [requests.post] on the authentication URL with
    the three credentials as its JSON body, [verify=False] and the
    session's headers, and prints that URL once; the client object is
    either left as it was, or the call returned the success marker and
    the object differs by the stored token and the [Session-Token] header
    only.  (How many requests [requests] puts on the wire for that one
    call is its own business.) *)
Theorem sign_in_one_post (username password directory_id : string) (w : World) :
  sent (snd (sign_in username password directory_id w))
    = (sent w ++ [authentication_request (self w) username password directory_id])%list
  ∧ stdout (snd (sign_in username password directory_id w))
      = (stdout w ++ [(base_url (self w) ++ "authentication" ++ "?version=" ++ "1.0")%string])%list
  ∧ (self (snd (sign_in username password directory_id w)) = self w
     ∨ (fst (sign_in username password directory_id w) = Ok (SUCCESS config)
        ∧ ∃ tok, self (snd (sign_in username password directory_id w))
                 = authenticated (self w) tok)).
Proof.
  rewrite sign_in_run. simpl.
  destruct (transport _ _) as [response|e]; [|by repeat split; left].
  destruct (ok response); [|by repeat split; left].
  unfold parse_response.
  destruct (decode_utf8 (content response)) as [body|]; [|by repeat split; left].
  destruct (json_loads body) as [result|]; [|by repeat split; left].
  unfold mret, M_ret.
  destruct (getitem result "session_token") as [tok|e]; [|by repeat split; left].
  simpl. repeat split. right. split; [done|by exists tok].
Qed.

(** X5: on a response with a status from 400 to 599, [sign_in] raises
    nothing and returns the server-error text, which ends with the status
    code, a colon and the reason phrase; the request was sent and the
    client object is as before. *)
Theorem sign_in_server_error (username password directory_id : string)
    (w : World) (response : Response) :
  transport (sent w) (authentication_request (self w) username password directory_id)
    = Responds response →
  400 ≤ status_code response < 600 →
  ∃ msg : string,
    sign_in username password directory_id w
      = (Ok msg, posted w username password directory_id)
    ∧ msg = "A server error occurred during your request. If the status code is available, it is shown below"
            ++ newline ++ pretty (status_code response) ++ ": " ++ reason response
    ∧ contains (pretty (status_code response) ++ ": " ++ reason response) msg = true.
Proof.
  intros Ht Hstatus.
  assert (Hok : ok response = false).
  { destruct (ok response) eqn:Hok; [|done]. apply ok_iff in Hok. lia. }
  eexists. split; [|split; [reflexivity|]].
  - rewrite sign_in_run. simpl. by rewrite Ht, Hok.
  - rewrite <- (append_assoc _ newline). apply contains_suffix.
Qed.

(** X6: a second successful [sign_in] refreshes the session.  When the
    first token is plain text on a session whose headers were acceptable
    to [requests], the second POST is prepared without complaint and still
    sends the first token; once it is granted the second token, the client
    object is what one sign-in with the second token would have left, so
    the first token is gone from the object and from its header set. *)
Theorem sign_in_again_refreshes (username password directory_id : string)
    (username' password' directory_id' : string) (w : World)
    (s1 : string) (tok2 : json) :
  plain_text s1 = true →
  accepted (headers (client (self w))) →
  grants (sent w) (self w) username password directory_id (JStr s1) →
  grants (sent w ++ [authentication_request (self w) username password directory_id])
         (authenticated (self w) (JStr s1)) username' password' directory_id' tok2 →
  ∃ w', (sign_in username password directory_id
           ≫= λ _, sign_in username' password' directory_id') w
          = (Ok (SUCCESS config), w')
      ∧ self w' = authenticated (self w) tok2
      ∧ sent w' = (sent w
                   ++ [authentication_request (self w) username password directory_id;
                       authentication_request (authenticated (self w) (JStr s1))
                         username' password' directory_id'])%list
      ∧ carries (authentication_request (authenticated (self w) (JStr s1))
                   username' password' directory_id') "Session-Token" s1
      ∧ header "Session-Token" (headers (client (self w'))) = Some tok2.
Proof.
  intros Hs1 Hacc H1 H2. eexists. split.
  { rewrite bind_run, (sign_in_granted _ _ _ _ (JStr s1) H1). cbv beta iota.
    rewrite (sign_in_granted _ _ _ _ tok2); [reflexivity|exact H2]. }
  simpl. split; [apply authenticated_again|].
  split; [by rewrite <- app_assoc|].
  split; [|apply header_update_eq].
  by apply (carries_token _ s1 (headers (client (self w)))).
Qed.

(** X7: a response with any status below 400 or from 600 up counts as
    success, and then a body that is not UTF-8, not JSON, or has no
    [session_token] to subscript makes [sign_in] raise (the decoder's
    error, the parser's error, or the error of the subscript) after the
    request was sent, with the client object as before. *)
Theorem sign_in_unusable_body_raises (username password directory_id : string)
    (w : World) (response : Response) :
  transport (sent w) (authentication_request (self w) username password directory_id)
    = Responds response →
  status_code response < 400 ∨ 600 ≤ status_code response →
  (decode_utf8 (content response) = None →
     sign_in username password directory_id w
       = (Raise UnicodeDecodeError, posted w username password directory_id))
  ∧ (∀ body,
       decode_utf8 (content response) = Some body →
       json_loads body = None →
       sign_in username password directory_id w
         = (Raise JSONDecodeError, posted w username password directory_id))
  ∧ (∀ body result e,
       decode_utf8 (content response) = Some body →
       json_loads body = Some result →
       getitem result "session_token" = Raise e →
       sign_in username password directory_id w
         = (Raise e, posted w username password directory_id)).
Proof.
  intros Ht Hstatus. apply ok_iff in Hstatus.
  rewrite sign_in_run. simpl. rewrite Ht, Hstatus. unfold parse_response.
  split; [|split].
  - by intros ->.
  - by intros body -> ->.
  - intros body result e -> ->. unfold mret, M_ret. by intros ->.
Qed.

(** ** What the retrieval methods leave alone *)

Lemma gets_between_refl (w : World) : gets_between w w.
Proof. split; [done|]. exists []. split; [by rewrite app_nil_r|constructor]. Qed.

Lemma gets_between_trans (w w1 w2 : World) :
  client (self w1) = client (self w) →
  gets_between w w1 → gets_between w1 w2 → gets_between w w2.
Proof.
  intros Hc (Ho1 & more1 & Hs1 & Hm1) (Ho2 & more2 & Hs2 & Hm2).
  split; [congruence|].
  exists (more1 ++ more2)%list. split.
  - by rewrite Hs2, Hs1, <- app_assoc.
  - rewrite Hc in Hm2. by apply Forall_app.
Qed.

Lemma reads_only_refl (w : World) : reads_only w w.
Proof. split; [done|apply gets_between_refl]. Qed.

Lemma reads_only_trans (w w1 w2 : World) :
  reads_only w w1 → reads_only w1 w2 → reads_only w w2.
Proof.
  intros [Hs1 Hg1] [Hs2 Hg2]. split; [congruence|].
  apply (gets_between_trans w w1 w2); [by rewrite Hs1|done|done].
Qed.

Lemma caches_only_refl (w : World) : caches_only w w.
Proof.
  split; [done|]. split; [done|]. split; [done|]. apply gets_between_refl.
Qed.

Lemma caches_only_trans (w w1 w2 : World) :
  caches_only w w1 → caches_only w1 w2 → caches_only w w2.
Proof.
  intros (Hb1 & Hc1 & Ht1 & Hg1) (Hb2 & Hc2 & Ht2 & Hg2).
  repeat split; try congruence.
  all: apply (gets_between_trans w w1 w2); done.
Qed.

Lemma reads_only_caches_only (w w' : World) : reads_only w w' → caches_only w w'.
Proof. intros [Hs Hg]. unfold caches_only. by rewrite Hs. Qed.

Section Preservation.

Variable R : World → World → Prop.
Hypothesis R_refl : ∀ w, R w w.
Hypothesis R_trans : ∀ w w1 w2, R w w1 → R w1 w2 → R w w2.

Lemma preserves_ret {A : Type} (a : A) : preserves R (mret a).
Proof. intros w. apply R_refl. Qed.

Lemma preserves_lift {A : Type} (r : res A) : preserves R (lift r).
Proof. intros w. apply R_refl. Qed.

Lemma preserves_raise {A : Type} (e : exn) : preserves R (raise (A:=A) e).
Proof. intros w. apply R_refl. Qed.

Lemma preserves_get_self : preserves R get_self.
Proof. intros w. apply R_refl. Qed.

Lemma preserves_bind {A B : Type} (m : M A) (f : A → M B) :
  preserves R m → (∀ a, preserves R (f a)) → preserves R (m ≫= f).
Proof.
  intros Hm Hf w. rewrite bind_run. specialize (Hm w).
  destruct (m w) as [[a|e] w1]; simpl in *; [|done].
  by apply (R_trans w w1), Hf.
Qed.

Lemma preserves_for_each (pages : list Z) (body : Z → M unit) :
  (∀ i, preserves R (body i)) → preserves R (for_each pages body).
Proof.
  intros Hbody. induction pages as [|i pages IH]; simpl.
  - apply preserves_ret.
  - apply preserves_bind; [apply Hbody|by intros _].
Qed.

Lemma preserves_for_each_extend {A : Type} (pages : list Z)
    (body : Z → M (list A)) (acc : list A) :
  (∀ i, preserves R (body i)) → preserves R (for_each_extend pages body acc).
Proof.
  intros Hbody. revert acc. induction pages as [|i pages IH]; intros acc; simpl.
  - apply preserves_ret.
  - apply preserves_bind; [apply Hbody|]. intros xs. apply IH.
Qed.

End Preservation.

Lemma parse_response_world (response : Response) (w : World) :
  snd (parse_response response w) = w.
Proof.
  unfold parse_response.
  destruct (decode_utf8 (content response)) as [body|]; [|done].
  by destruct (json_loads body).
Qed.

Lemma client_get_reads_only (url : string) : preserves reads_only (client_get url).
Proof.
  intros w. rewrite client_get_run. split; [done|]. split; [done|].
  eexists. split; [reflexivity|]. by repeat constructor.
Qed.

Lemma parse_response_reads_only (response : Response) :
  preserves reads_only (parse_response response).
Proof. intros w. rewrite parse_response_world. apply reads_only_refl. Qed.

Lemma build_uri_with_version_reads_only (method_name version : string) :
  preserves reads_only (build_uri_with_version method_name version).
Proof. intros w. apply reads_only_refl. Qed.

Lemma request_instances_reads_only (type : string) (page_num panel_id : Z) :
  preserves reads_only (request_instances type page_num panel_id).
Proof.
  unfold request_instances.
  apply (preserves_bind _ reads_only_trans);
    [apply build_uri_with_version_reads_only|intros uri].
  apply (preserves_bind _ reads_only_trans);
    [apply client_get_reads_only|apply parse_response_reads_only].
Qed.

Lemma request_cardholder_reads_only (autoload_badge has_badges : bool)
    (cardholder_filter badges_filter : option string) :
  preserves reads_only
    (request_cardholder autoload_badge has_badges cardholder_filter badges_filter).
Proof.
  unfold request_cardholder.
  apply (preserves_bind _ reads_only_trans);
    [apply build_uri_with_version_reads_only|intros uri].
  apply (preserves_bind _ reads_only_trans);
    [apply client_get_reads_only|apply parse_response_reads_only].
Qed.

Lemma get_directories_reads_only : preserves reads_only get_directories.
Proof.
  unfold get_directories.
  apply (preserves_bind _ reads_only_trans);
    [apply build_uri_with_version_reads_only|intros uri].
  apply (preserves_bind _ reads_only_trans);
    [apply client_get_reads_only|intros response].
  destruct (status_code response =? 200);
    [|apply (preserves_ret _ reads_only_refl)].
  destruct (json_loads (text response)) as [result|];
    [|apply (preserves_raise _ reads_only_refl)].
  apply (preserves_bind _ reads_only_trans);
    [apply (preserves_lift _ reads_only_refl)|intros ds].
  apply (preserves_ret _ reads_only_refl).
Qed.

Lemma retrieve_readers_reads_only (panelId : Z) :
  preserves reads_only (retrieve_readers panelId).
Proof.
  unfold retrieve_readers.
  apply (preserves_bind _ reads_only_trans);
    [apply request_instances_reads_only|intros result].
  apply (preserves_bind _ reads_only_trans);
    [apply (preserves_lift _ reads_only_refl)|intros count].
  destruct (py_eq_int count 0); [apply (preserves_ret _ reads_only_refl)|].
  apply (preserves_bind _ reads_only_trans);
    [apply (preserves_lift _ reads_only_refl)|intros pageCount].
  apply (preserves_bind _ reads_only_trans);
    [apply (preserves_lift _ reads_only_refl)|intros rs].
  apply (preserves_bind _ reads_only_trans);
    [apply (preserves_lift _ reads_only_refl)|intros pages].
  apply (preserves_for_each_extend _ reads_only_refl reads_only_trans).
  intros i.
  apply (preserves_bind _ reads_only_trans);
    [apply request_instances_reads_only|intros result'].
  apply (preserves_lift _ reads_only_refl).
Qed.

Lemma gets_between_same (w w' : World) :
  stdout w' = stdout w → sent w' = sent w → gets_between w w'.
Proof.
  intros Ho Hs. split; [done|]. exists [].
  split; [by rewrite app_nil_r|constructor].
Qed.

Lemma set_panels_caches_only (ps : list Panel) : preserves caches_only (set_panels ps).
Proof.
  intros w. split; [done|]. split; [done|]. split; [done|].
  by apply gets_between_same.
Qed.

Lemma panels_extend_caches_only (ps : list Panel) :
  preserves caches_only (panels_extend ps).
Proof.
  intros w. split; [done|]. split; [done|]. split; [done|].
  by apply gets_between_same.
Qed.

Lemma request_instances_caches_only (type : string) (page_num panel_id : Z) :
  preserves caches_only (request_instances type page_num panel_id).
Proof. intros w. apply reads_only_caches_only, request_instances_reads_only. Qed.

Lemma retrieve_panels_caches_only : preserves caches_only retrieve_panels.
Proof.
  unfold retrieve_panels.
  apply (preserves_bind _ caches_only_trans);
    [apply set_panels_caches_only|intros _].
  apply (preserves_bind _ caches_only_trans);
    [apply request_instances_caches_only|intros result].
  apply (preserves_bind _ caches_only_trans);
    [apply (preserves_lift _ caches_only_refl)|intros pageCount].
  apply (preserves_bind _ caches_only_trans);
    [apply (preserves_lift _ caches_only_refl)|intros ps].
  apply (preserves_bind _ caches_only_trans);
    [apply panels_extend_caches_only|intros _].
  apply (preserves_bind _ caches_only_trans);
    [apply (preserves_lift _ caches_only_refl)|intros pages].
  apply (preserves_bind _ caches_only_trans).
  - apply (preserves_for_each _ caches_only_refl caches_only_trans). intros i.
    apply (preserves_bind _ caches_only_trans);
      [apply request_instances_caches_only|intros result'].
    apply (preserves_bind _ caches_only_trans);
      [apply (preserves_lift _ caches_only_refl)|intros ps'].
    apply panels_extend_caches_only.
  - intros _.
    apply (preserves_bind _ caches_only_trans);
      [apply (preserves_get_self _ caches_only_refl)|intros o].
    apply (preserves_ret _ caches_only_refl).
Qed.

(** X8: whatever the peer answers and whether the call returns or raises,
    [request_instances], [request_cardholder], [get_directories] and
    [retrieve_readers] leave the client object exactly as it was (token,
    headers, base URL and the cached panel list), print nothing, and send
    nothing but GETs that carry the session's headers and [verify] and have
    no body. *)
Theorem retrieval_reads_only (w : World) :
  (∀ type page_num panel_id,
     reads_only w (snd (request_instances type page_num panel_id w)))
  ∧ (∀ autoload_badge has_badges cardholder_filter badges_filter,
       reads_only w (snd (request_cardholder autoload_badge has_badges
                            cardholder_filter badges_filter w)))
  ∧ reads_only w (snd (get_directories w))
  ∧ (∀ panelId, reads_only w (snd (retrieve_readers panelId w))).
Proof.
  split; [|split; [|split]].
  - intros. apply request_instances_reads_only.
  - intros. apply request_cardholder_reads_only.
  - apply get_directories_reads_only.
  - intros. apply retrieve_readers_reads_only.
Qed.

(** X9: whatever the peer answers and whether the call returns or raises,
    [retrieve_panels] changes nothing of the client object but its panel
    list: base URL, session, headers and token are as before, nothing is
    printed, and only GETs with the session's headers are sent. *)
Theorem retrieve_panels_caches_only_panels (w : World) :
  caches_only w (snd (retrieve_panels w)).
Proof. apply retrieve_panels_caches_only. Qed.

Lemma gets_sent_with (w w' : World) (name s : string) :
  accepted (headers (client (self w))) →
  wire_header name (headers (client (self w))) = Some s →
  gets_between w w' →
  all_sent_with name s (sent w) (sent w').
Proof.
  intros Hacc Hs (_ & more & Hmore & Hm). exists more. split; [done|].
  eapply Forall_impl; [exact Hm|].
  intros r (Hmeth & Hh & _). split; [done|]. unfold carries. by rewrite Hh.
Qed.

(** X10: after a [sign_in] that was granted a token of plain text, on a
    session whose headers were acceptable to [requests], every call that a
    following [retrieve_panels], [retrieve_readers], [get_directories] or
    [request_cardholder] makes is a GET that is prepared without complaint
    and sends [Session-Token] with that text, whatever comes back. *)
Theorem requests_after_sign_in_carry_token (username password directory_id : string)
    (w : World) (s : string) :
  grants (sent w) (self w) username password directory_id (JStr s) →
  plain_text s = true →
  accepted (headers (client (self w))) →
  let w1 := snd (sign_in username password directory_id w) in
  all_sent_with "Session-Token" s (sent w1) (sent (snd (retrieve_panels w1)))
  ∧ (∀ panelId,
       all_sent_with "Session-Token" s (sent w1)
         (sent (snd (retrieve_readers panelId w1))))
  ∧ all_sent_with "Session-Token" s (sent w1) (sent (snd (get_directories w1)))
  ∧ (∀ autoload_badge has_badges cardholder_filter badges_filter,
       all_sent_with "Session-Token" s (sent w1)
         (sent (snd (request_cardholder autoload_badge has_badges
                       cardholder_filter badges_filter w1)))).
Proof.
  intros Hgrant Hs Hacc. rewrite (sign_in_granted _ _ _ _ (JStr s) Hgrant).
  cbv zeta. cbn [snd].
  match goal with |- context [retrieve_panels ?x] => set (w1 := x) end.
  assert (Hout : goes_out_as (JStr s) = Some (Some s)) by (simpl; by rewrite Hs).
  assert (Hacc1 : accepted (headers (client (self w1)))).
  { apply accepted_update; [by rewrite Hout|done]. }
  assert (Hh : wire_header "Session-Token" (headers (client (self w1))) = Some s)
    by (by apply wire_header_update).
  split; [|split; [|split]]; intros;
    apply (gets_sent_with w1 _ _ _ Hacc1 Hh).
  - apply retrieve_panels_caches_only.
  - apply retrieve_readers_reads_only.
  - apply get_directories_reads_only.
  - apply request_cardholder_reads_only.
Qed.

(** ** Pagination, the other outcomes *)

Lemma request_instances_fails (type : string) (page_num panel_id : Z)
    (w : World) (e : string) :
  transport (sent w) (instances_request (self w) type page_num panel_id) = Fails e →
  request_instances type page_num panel_id w
    = (Raise (RequestException e),
       logged w (instances_request (self w) type page_num panel_id)).
Proof. intros H. rewrite request_instances_run. simpl. by rewrite H. Qed.

Lemma for_each_app (xs ys : list Z) (body : Z → M unit) (w : World) :
  for_each (xs ++ ys) body w
    = match for_each xs body w with
      | (Ok _, w') => for_each ys body w'
      | (Raise e, w') => (Raise e, w')
      end.
Proof.
  revert w. induction xs as [|i xs IH]; intros w; simpl; [done|].
  rewrite !bind_run. destruct (body i w) as [[[]|e] w1]; [apply IH|done].
Qed.

(** X11: a connection-level failure on the first request is not caught by
    the retrieval methods: [retrieve_panels], [retrieve_readers] and
    [get_directories] raise the transport's exception after that one
    request, and [retrieve_panels] has by then already emptied the cached
    panel list. *)
Theorem transport_failure_escapes (w : World) (e : string) :
  (transport (sent w) (instances_request (self w) "Lnl_Panel" 1 (-1)) = Fails e →
     retrieve_panels w
       = (Raise (RequestException e),
          {| self := with_panels (self w) [];
             sent := sent w ++ [instances_request (self w) "Lnl_Panel" 1 (-1)];
             stdout := stdout w |}))
  ∧ (∀ panelId,
       transport (sent w) (instances_request (self w) "Lnl_Reader" 1 panelId) = Fails e →
       retrieve_readers panelId w
         = (Raise (RequestException e),
            logged w (instances_request (self w) "Lnl_Reader" 1 panelId)))
  ∧ (transport (sent w) (directories_request (self w)) = Fails e →
       get_directories w
         = (Raise (RequestException e), logged w (directories_request (self w)))).
Proof.
  split; [|split].
  - intros H. unfold retrieve_panels.
    rewrite bind_run, set_panels_run. cbv beta iota.
    rewrite bind_run, (request_instances_fails _ _ _ _ e); [reflexivity|exact H].
  - intros panelId H. unfold retrieve_readers.
    by rewrite bind_run, (request_instances_fails _ _ _ _ e H).
  - intros H. rewrite get_directories_run. simpl. by rewrite H.
Qed.

(** X12: when pages 1 to k-1 of the panel query are served and project,
    page 1 reports [total_pages] = N with 2 <= k <= N, and the request for
    page k fails at the connection level, [retrieve_panels] raises after
    exactly k requests and leaves in [self.panels] the panels of pages
    1 to k-1 only. *)
Theorem retrieve_panels_fails_midway (w : World) (N k : Z)
    (page : Z → json) (items : Z → list Panel) (e : string) :
  2 ≤ k ≤ N →
  (∀ i, 1 ≤ i < k →
     served (sent w ++ page_requests (self w) "Lnl_Panel" (-1) (seqZ 1 (i - 1)))
            (instances_request (self w) "Lnl_Panel" i (-1)) = Some (page i)) →
  getitem (page 1) "total_pages" = Ok (JInt N) →
  (∀ i, 1 ≤ i < k → get_panels_from_result (page i) = Ok (items i)) →
  transport (sent w ++ page_requests (self w) "Lnl_Panel" (-1) (seqZ 1 (k - 1)))
            (instances_request (self w) "Lnl_Panel" k (-1)) = Fails e →
  retrieve_panels w
    = (Raise (RequestException e),
       {| self := with_panels (self w) (concat (map items (seqZ 1 (k - 1))));
          sent := sent w ++ page_requests (self w) "Lnl_Panel" (-1) (seqZ 1 k);
          stdout := stdout w |}).
Proof.
  intros Hk Hserved Htotal Hitems Hfail.
  unfold retrieve_panels.
  rewrite bind_run, set_panels_run. cbv beta iota.
  rewrite bind_run, (request_instances_served _ _ _ _ (page 1)).
  2:{ specialize (Hserved 1 ltac:(lia)). simpl in Hserved.
      by rewrite app_nil_r in Hserved. }
  cbv beta iota.
  rewrite bind_run, lift_run, Htotal. cbv beta iota.
  rewrite bind_run, lift_run, (Hitems 1) by lia. cbv beta iota.
  rewrite bind_run, panels_extend_run. cbv beta iota.
  rewrite bind_run, lift_run. simpl page_range. cbv beta iota.
  replace (N + 1 - 2) with (Z.of_nat (Z.to_nat (k - 2)) + (N - k + 1)) by lia.
  rewrite seqZ_app by lia.
  rewrite bind_run, for_each_app, (panels_loop page items).
  - replace (2 + Z.of_nat (Z.to_nat (k - 2))) with k by lia.
    rewrite (seqZ_cons k) by lia. simpl for_each.
    rewrite bind_run, bind_run, (request_instances_fails _ _ _ _ e).
    + unfold logged, with_panels. simpl. f_equal. f_equal.
      * f_equal. rewrite (seqZ_cons 1 (k - 1)) by lia.
        by replace (Z.pred (k - 1)) with (Z.of_nat (Z.to_nat (k - 2))) by lia.
      * rewrite (page_requests_cons _ _ _ 1 k) by lia.
        replace (Z.pred k) with (Z.of_nat (Z.to_nat (k - 2)) + 1) by lia.
        unfold page_requests. rewrite seqZ_app by lia.
        rewrite map_app.
        replace (Z.succ 1 + Z.of_nat (Z.to_nat (k - 2))) with k by lia.
        simpl. rewrite <- !app_assoc. reflexivity.
    + simpl. rewrite <- app_assoc. simpl.
      rewrite (page_requests_cons _ _ _ 1 (k - 1)) in Hfail by lia.
      by replace (Z.pred (k - 1)) with (Z.of_nat (Z.to_nat (k - 2))) in Hfail by lia.
  - intros i Hi. simpl. rewrite <- app_assoc. simpl.
    specialize (Hserved i ltac:(lia)).
    rewrite page_requests_cons in Hserved by lia.
    by replace (i - 2) with (Z.pred (i - 1)) by lia.
  - intros i Hi. apply Hitems. lia.
Qed.

(** X13: when page 1 reports an integer [total_pages] of at most 1 (0 and
    negative numbers included), page 1 is the only page requested:
    [retrieve_panels] and, for a count not equal to 0, [retrieve_readers]
    return the projection of page 1 after exactly one request. *)
Theorem single_page_single_request (w : World) (N : Z) :
  N ≤ 1 →
  (∀ (page1 : json) (items1 : list Panel),
     served (sent w) (instances_request (self w) "Lnl_Panel" 1 (-1)) = Some page1 →
     getitem page1 "total_pages" = Ok (JInt N) →
     get_panels_from_result page1 = Ok items1 →
     retrieve_panels w
       = (Ok items1,
          {| self := with_panels (self w) items1;
             sent := sent w ++ [instances_request (self w) "Lnl_Panel" 1 (-1)];
             stdout := stdout w |}))
  ∧ (∀ (panelId : Z) (page1 count : json) (items1 : list Reader),
       served (sent w) (instances_request (self w) "Lnl_Reader" 1 panelId) = Some page1 →
       getitem page1 "count" = Ok count →
       py_eq_int count 0 = false →
       getitem page1 "total_pages" = Ok (JInt N) →
       get_readers_from_result page1 = Ok items1 →
       retrieve_readers panelId w
         = (Ok items1, logged w (instances_request (self w) "Lnl_Reader" 1 panelId))).
Proof.
  intros HN. split.
  - intros page1 items1 Hserved Htotal Hitems. unfold retrieve_panels.
    rewrite bind_run, set_panels_run. cbv beta iota.
    rewrite bind_run, (request_instances_served _ _ _ _ page1);
      [|exact Hserved].
    cbv beta iota.
    rewrite bind_run, lift_run, Htotal. cbv beta iota.
    rewrite bind_run, lift_run, Hitems. cbv beta iota.
    rewrite bind_run, panels_extend_run. cbv beta iota.
    rewrite bind_run, lift_run. simpl page_range. cbv beta iota.
    rewrite seqZ_nil by lia. reflexivity.
  - intros panelId page1 count items1 Hserved Hcount Hnz Htotal Hitems.
    unfold retrieve_readers.
    rewrite bind_run, (request_instances_served _ _ _ _ page1);
      [|exact Hserved].
    cbv beta iota.
    rewrite bind_run, lift_run, Hcount. cbv beta iota. rewrite Hnz.
    rewrite bind_run, lift_run, Htotal. cbv beta iota.
    rewrite bind_run, lift_run, Hitems. cbv beta iota.
    rewrite bind_run, lift_run. simpl page_range. cbv beta iota.
    rewrite seqZ_nil by lia. reflexivity.
Qed.

Lemma page_range_not_integer (v : json) :
  (∀ n, v ≠ JInt n) → (∀ b, v ≠ JBool b) →
  ∃ what, page_range v = Raise (TypeError what).
Proof.
  intros Hint Hbool. destruct v; simpl; try by eexists.
  - by destruct (Hbool b).
  - by destruct (Hint n).
Qed.

(** X14: [retrieve_panels] reads [total_pages] before it caches page 1 but
    uses it only afterwards.  When page 1 has no [total_pages] to
    subscript, the subscript's exception is raised with the panel list
    empty; when [total_pages] is there but is neither an integer nor a
    boolean (a float, a string, null, ...), [TypeError] is raised after one
    request with the panels of page 1 already in [self.panels]. *)
Theorem retrieve_panels_bad_total_pages (w : World) (page1 : json) :
  served (sent w) (instances_request (self w) "Lnl_Panel" 1 (-1)) = Some page1 →
  (∀ e, getitem page1 "total_pages" = Raise e →
     retrieve_panels w
       = (Raise e,
          {| self := with_panels (self w) [];
             sent := sent w ++ [instances_request (self w) "Lnl_Panel" 1 (-1)];
             stdout := stdout w |}))
  ∧ (∀ v items1,
       getitem page1 "total_pages" = Ok v →
       (∀ n, v ≠ JInt n) → (∀ b, v ≠ JBool b) →
       get_panels_from_result page1 = Ok items1 →
       ∃ what,
         retrieve_panels w
           = (Raise (TypeError what),
              {| self := with_panels (self w) items1;
                 sent := sent w ++ [instances_request (self w) "Lnl_Panel" 1 (-1)];
                 stdout := stdout w |})).
Proof.
  intros Hserved. split.
  - intros e Htotal. unfold retrieve_panels.
    rewrite bind_run, set_panels_run. cbv beta iota.
    rewrite bind_run, (request_instances_served _ _ _ _ page1);
      [|exact Hserved].
    cbv beta iota.
    by rewrite bind_run, lift_run, Htotal.
  - intros v items1 Htotal Hint Hbool Hitems.
    destruct (page_range_not_integer v Hint Hbool) as [what Hrange].
    exists what. unfold retrieve_panels.
    rewrite bind_run, set_panels_run. cbv beta iota.
    rewrite bind_run, (request_instances_served _ _ _ _ page1);
      [|exact Hserved].
    cbv beta iota.
    rewrite bind_run, lift_run, Htotal. cbv beta iota.
    rewrite bind_run, lift_run, Hitems. cbv beta iota.
    rewrite bind_run, panels_extend_run. cbv beta iota.
    by rewrite bind_run, lift_run, Hrange.
Qed.

Lemma bind_ok_inv {A B : Type} (m : M A) (f : A → M B) (w w' : World) (b : B) :
  (m ≫= f) w = (Ok b, w') →
  ∃ a w1, m w = (Ok a, w1) ∧ f a w1 = (Ok b, w').
Proof.
  rewrite bind_run. destruct (m w) as [[a|e] w1]; [|discriminate].
  intros H. by exists a, w1.
Qed.

(** X15: whenever [retrieve_panels] returns, whatever the peer served, the
    list it returns is the one it left in [self.panels], so a following
    [get_panels] returns that same list; [get_panels] itself sends nothing
    and changes nothing. *)
Theorem get_panels_after_retrieve_panels (w w' : World) (ps : list Panel) :
  retrieve_panels w = (Ok ps, w') →
  panels (self w') = ps
  ∧ get_panels w' = (Ok ps, w')
  ∧ (retrieve_panels ≫= λ _, get_panels) w = (Ok ps, w').
Proof.
  intros H.
  assert (Hps : panels (self w') = ps).
  { unfold retrieve_panels in H.
    do 7 (apply bind_ok_inv in H as (? & ? & _ & H)).
    unfold get_self in H. rewrite bind_run in H. by injection H as <- <-. }
  assert (Hget : get_panels w' = (Ok ps, w')).
  { unfold get_panels, get_self. rewrite bind_run. by rewrite <- Hps. }
  split; [done|]. split; [done|].
  by rewrite bind_run, H.
Qed.

Lemma append_nil_r (s : string) : s ++ "" = s.
Proof.
  induction s as [|c s IH]; [done|].
  change (String c (s ++ "") = String c s). by rewrite IH.
Qed.

Lemma request_cardholder_run (autoload_badge has_badges : bool)
    (cardholder_filter badges_filter : option string) (w : World) :
  request_cardholder autoload_badge has_badges cardholder_filter badges_filter w =
    let req := cardholders_request (self w) autoload_badge
                 cardholder_filter badges_filter in
    match transport (sent w) req with
    | Responds r => parse_response r (logged w req)
    | Fails e => (Raise (RequestException e), logged w req)
    end.
Proof.
  unfold request_cardholder, cardholders_request, cardholders_url, client_get,
    build_uri_with_version, get_self, send, logged.
  rewrite !bind_run. unfold mret at 1, M_ret at 1. cbv beta iota zeta.
  rewrite !bind_run. cbv beta iota. simpl self.
  destruct autoload_badge, cardholder_filter as [f|], badges_filter as [g|];
    rewrite ?append_assoc, ?append_nil_r; simpl;
    destruct (transport _ _); reflexivity.
Qed.

(** X16: [request_cardholder] sends one GET whose URL is the version 1.2
    cardholders endpoint followed by the [auto_load_badge] flag, the
    cardholder filter and the badges filter, each only when asked for, in
    that order and with the filter text as given; it returns what the peer
    serves, and the [has_badges] argument changes nothing. *)
Theorem request_cardholder_query (autoload_badge has_badges : bool)
    (cardholder_filter badges_filter : option string) (w : World) :
  snd (request_cardholder autoload_badge has_badges cardholder_filter badges_filter w)
    = logged w (cardholders_request (self w) autoload_badge
                  cardholder_filter badges_filter)
  ∧ (∀ result,
       served (sent w) (cardholders_request (self w) autoload_badge
                          cardholder_filter badges_filter) = Some result →
       fst (request_cardholder autoload_badge has_badges
              cardholder_filter badges_filter w) = Ok result)
  ∧ request_cardholder autoload_badge has_badges cardholder_filter badges_filter w
    = request_cardholder autoload_badge (negb has_badges)
        cardholder_filter badges_filter w.
Proof.
  rewrite !request_cardholder_run. cbv zeta. split; [|split].
  - destruct (transport _ _) as [r|e]; [|done]. apply parse_response_world.
  - intros result. unfold served.
    destruct (transport _ _) as [r|e]; [|done].
    unfold parse_response.
    destruct (decode_utf8 (content r)) as [body|]; [|done]. simpl.
    by intros ->.
  - reflexivity.
Qed.

(** ** Invariants of the client *)

Lemma step_self (w w' : World) :
  step w w' →
  (base_url (self w') = base_url (self w)
   ∧ client (self w') = client (self w)
   ∧ session_token (self w') = session_token (self w))
  ∨ ∃ tok, self w' = authenticated (self w) tok.
Proof.
  intros Hstep.
  destruct Hstep as [u p d w|t pn pid w|a hb cf bf w|w|w|w|pid w|rd w|m v w|r w].
  - destruct (sign_in_effects_self u p d w) as [->|[tok ->]];
      [by left|right; by exists tok].
  - left. by destruct (request_instances_reads_only t pn pid w) as [-> _].
  - left. by destruct (request_cardholder_reads_only a hb cf bf w) as [-> _].
  - left. by destruct (get_directories_reads_only w) as [-> _].
  - left. destruct (retrieve_panels_caches_only w) as (? & ? & ? & _). done.
  - by left.
  - left. by destruct (retrieve_readers_reads_only pid w) as [-> _].
  - by left.
  - by left.
  - left. by rewrite parse_response_world.
Qed.

Lemma step_sent (w w' : World) :
  step w w' →
  ∃ more : list Request,
    sent w' = (sent w ++ more)%list
    ∧ Forall (λ r, req_verify r = false ∨ req_verify r = verify (client (self w))) more.
Proof.
  assert (Hgets : ∀ w0 w1, gets_between w0 w1 →
            ∃ more : list Request,
              sent w1 = (sent w0 ++ more)%list
              ∧ Forall (λ r, req_verify r = false
                             ∨ req_verify r = verify (client (self w0))) more).
  { intros w0 w1 (_ & more & Hs & Hm). exists more. split; [done|].
    eapply Forall_impl; [exact Hm|]. intros r (_ & _ & Hv & _). by right. }
  intros Hstep.
  destruct Hstep as [u p d w|t pn pid w|a hb cf bf w|w|w|w|pid w|rd w|m v w|r w].
  - exists [authentication_request (self w) u p d].
    split; [apply sign_in_sent|]. repeat constructor.
  - apply Hgets, request_instances_reads_only.
  - apply Hgets, request_cardholder_reads_only.
  - apply Hgets, get_directories_reads_only.
  - apply Hgets, retrieve_panels_caches_only.
  - exists []. split; [by rewrite app_nil_r|constructor].
  - apply Hgets, retrieve_readers_reads_only.
  - exists []. split; [by rewrite app_nil_r|constructor].
  - exists []. split; [by rewrite app_nil_r|constructor].
  - exists []. rewrite parse_response_world.
    split; [by rewrite app_nil_r|constructor].
Qed.

Lemma header_update_ne (name name' : string) (v : json)
    (h : gmap string (string * json)) :
  lower name ≠ lower name' →
  header name (update_header name' v h) = header name h.
Proof.
  intros Hne. unfold header, update_header. by rewrite lookup_insert_ne.
Qed.

(** X17: in every world a freshly constructed client can reach by calls of
    its methods in any order and with any outcomes, the stored token and
    the [Session-Token] header agree (both absent, or both the same
    token), and the three headers of the constructor are still there with
    their values. *)
Theorem session_invariant (w : World) :
  reachable w →
  header "Session-Token" (headers (client (self w))) = session_token (self w)
  ∧ header "Application-Id" (headers (client (self w)))
      = Some (JStr (APPLICATION_ID config))
  ∧ header "Content-Type" (headers (client (self w))) = Some (JStr "application/json")
  ∧ header "Accept" (headers (client (self w))) = Some (JStr "application/json").
Proof.
  induction 1 as [|w w' _ IH Hstep]; [by repeat split|].
  destruct IH as (Htok & Happ & Hct & Hacc).
  destruct (step_self w w' Hstep) as [(_ & -> & ->)|[tok ->]]; [done|].
  simpl. split; [apply header_update_eq|].
  rewrite !header_update_ne by done. done.
Qed.

(** X18: in every such world the base URL is still the configured one,
    the session's [verify] attribute is still [False], and every call made
    into [requests] was made with [verify] off: [sign_in] passes
    [verify=False] itself, and the session's calls are made with the
    session's setting.  (A CA bundle named in the environment is preferred
    by [requests] to a session's setting; the environment is outside this
    statement.) *)
Theorem transport_invariant (w : World) :
  reachable w →
  base_url (self w) = API_URL config
  ∧ verify (client (self w)) = false
  ∧ Forall (λ r, req_verify r = false) (sent w).
Proof.
  induction 1 as [|w w' _ IH Hstep]; [by repeat split|].
  destruct IH as (Hbase & Hverify & Hsent).
  destruct (step_sent w w' Hstep) as (more & -> & Hmore).
  assert (Hall : Forall (λ r, req_verify r = false) (sent w ++ more)).
  { apply Forall_app. split; [done|].
    eapply Forall_impl; [exact Hmore|]. intros r [Hr|Hr]; congruence. }
  destruct (step_self w w' Hstep) as [(-> & -> & _)|[tok ->]]; done.
Qed.

End Client.

(** ** The theorems at work on the test doubles *)

Lemma get_panels_from_result_projects_witness :
  getitem (JObj [("item_list",
                  JArr [Stub.lobby_item; Stub.garage_item;
                        Stub.flagged_item (JInt 1);
                        Stub.flagged_item (JFloat (FNum 1 0));
                        Stub.flagged_item (JFloat (FNum 4 (-2)));
                        Stub.flagged_item (JFloat (FNum 3 (-1)));
                        Stub.flagged_item (JStr "true");
                        Stub.flagged_item JNull])]) "item_list"
    = Ok (JArr [Stub.lobby_item; Stub.garage_item;
                Stub.flagged_item (JInt 1);
                Stub.flagged_item (JFloat (FNum 1 0));
                Stub.flagged_item (JFloat (FNum 4 (-2)));
                Stub.flagged_item (JFloat (FNum 3 (-1)));
                Stub.flagged_item (JStr "true");
                Stub.flagged_item JNull])
  ∧ panel_entry Stub.lobby_item
      {| panel_id := JStr "1"; panel_name := JStr "Lobby";
         panel_status := true; panel_type := JStr "X" |}
  ∧ get_panels_from_result (JObj [("item_list", JArr [Stub.lobby_item])])
      = Ok [{| panel_id := JStr "1"; panel_name := JStr "Lobby";
               panel_status := true; panel_type := JStr "X" |}]
  ∧ get_panels_from_result
      (JObj [("item_list",
              JArr [Stub.lobby_item; Stub.garage_item;
                    Stub.flagged_item (JInt 1);
                    Stub.flagged_item (JFloat (FNum 1 0));
                    Stub.flagged_item (JFloat (FNum 4 (-2)));
                    Stub.flagged_item (JFloat (FNum 3 (-1)));
                    Stub.flagged_item (JStr "true");
                    Stub.flagged_item JNull])])
      = Ok [Stub.lobby; Stub.garage; Stub.flagged true; Stub.flagged true;
            Stub.flagged true; Stub.flagged false; Stub.flagged false;
            Stub.flagged false].
Proof.
  assert (Hyes : ∀ o, equals_True o → (true = true ↔ equals_True o)) by done.
  assert (Hno : ∀ o, ¬ equals_True o → (false = true ↔ equals_True o)).
  { intros o Ho. split; [discriminate|]. intros H. by destruct Ho. }
  assert (Hentry : ∀ flag status,
            (status = true ↔ equals_True flag) →
            panel_entry (Stub.flagged_item flag) (Stub.flagged status)).
  { intros flag status H.
    exists (JObj [("ID", JStr "3"); ("Name", JStr "Dock");
                  ("IsOnline", flag); ("PanelType", JStr "Z")]), flag.
    split; [done|]. split; [done|]. split; [done|]. split; [done|].
    split; [exact H|done]. }
  assert (Hlobby : panel_entry Stub.lobby_item Stub.lobby).
  { exists (JObj [("ID", JStr "1"); ("Name", JStr "Lobby");
                  ("IsOnline", JBool true); ("PanelType", JStr "X")]), (JBool true).
    repeat split; try done. by left. }
  assert (Hgarage : panel_entry Stub.garage_item Stub.garage).
  { exists (JObj [("ID", JStr "2"); ("Name", JStr "Garage");
                  ("IsOnline", JBool false); ("PanelType", JStr "Y")]), (JBool false).
    repeat split; try done.
    intros [H|[H|(f & q & H & _)]]; discriminate. }
  assert (Hone : equals_True (JInt 1)) by (right; by left).
  assert (Hfloat : equals_True (JFloat (FNum 1 0))).
  { right. right. eexists _, _. repeat split. }
  assert (Hquarter : equals_True (JFloat (FNum 4 (-2)))).
  { right. right. eexists _, _. repeat split. }
  assert (Hhalf : ¬ equals_True (JFloat (FNum 3 (-1)))).
  { intros [H|[H|(f & q & [= <-] & [= <-] & H)]]; discriminate. }
  assert (Htext : ¬ equals_True (JStr "true")).
  { intros [H|[H|(f & q & H & _)]]; discriminate. }
  assert (Hnull : ¬ equals_True JNull).
  { intros [H|[H|(f & q & H & _)]]; discriminate. }
  split; [reflexivity|]. split; [exact Hlobby|]. split.
  - apply (get_panels_from_result_projects
             (JObj [("item_list", JArr [Stub.lobby_item])])
             [Stub.lobby_item] [Stub.lobby] eq_refl).
    by repeat constructor.
  - eapply get_panels_from_result_projects; [reflexivity|].
    repeat constructor; try done; apply Hentry; auto.
Defined.

Lemma sign_in_success_witness :
  Stub.peer [] (authentication_request (init Stub.config) "admin" "secret" "id-1")
    = Responds (Stub.answer 200 "OK" (Stub.dumps Stub.token_document))
  ∧ ok (Stub.answer 200 "OK" (Stub.dumps Stub.token_document)) = true
  ∧ Stub.decode_utf8 (Stub.dumps Stub.token_document)
      = Some (Stub.dumps Stub.token_document)
  ∧ Stub.json_loads (Stub.dumps Stub.token_document) = Some Stub.token_document
  ∧ getitem Stub.token_document "session_token" = Ok (JStr "T")
  ∧ plain_text "T" = true
  ∧ accepted (headers (client (init Stub.config)))
  ∧ ∃ w', sign_in Stub.config Stub.decode_utf8 Stub.json_loads Stub.peer
            "admin" "secret" "id-1" (fresh_world Stub.config)
          = (Ok "Success", w')
        ∧ session_token (self w') = Some (JStr "T")
        ∧ header "Session-Token" (headers (client (self w'))) = Some (JStr "T")
        ∧ ∃ req,
            snd (client_get Stub.peer
                   "https://onguard.example/api/access/onguard/openaccess/directories?version=1.0"
                   w') = logged w' req
            ∧ carries req "Session-Token" "T".
Proof.
  assert (H1 : Stub.peer (sent (fresh_world Stub.config))
                 (authentication_request (self (fresh_world Stub.config))
                    "admin" "secret" "id-1")
               = Responds (Stub.answer 200 "OK" (Stub.dumps Stub.token_document)))
    by (vm_compute; reflexivity).
  assert (H2 : ok (Stub.answer 200 "OK" (Stub.dumps Stub.token_document)) = true)
    by reflexivity.
  assert (H3 : Stub.decode_utf8
                 (content (Stub.answer 200 "OK" (Stub.dumps Stub.token_document)))
               = Some (Stub.dumps Stub.token_document))
    by (vm_compute; reflexivity).
  assert (H4 : Stub.json_loads (Stub.dumps Stub.token_document)
               = Some Stub.token_document)
    by (vm_compute; reflexivity).
  assert (H5 : getitem Stub.token_document "session_token" = Ok (JStr "T"))
    by reflexivity.
  assert (H6 : plain_text "T" = true) by reflexivity.
  assert (H7 : accepted (headers (client (self (fresh_world Stub.config)))))
    by (apply accepted_init; reflexivity).
  destruct (sign_in_success Stub.config Stub.decode_utf8 Stub.json_loads Stub.peer
              "admin" "secret" "id-1" (fresh_world Stub.config)
              _ _ _ _ H1 H2 H3 H4 H5) as (w' & Hrun & Htok & Hhdr & Hlater & _).
  repeat (split; [assumption|]).
  exists w'. repeat (split; [assumption|]).
  exact (proj1 (Hlater "T" eq_refl H6 H7 w'
                  "https://onguard.example/api/access/onguard/openaccess/directories?version=1.0"
                  JNull eq_refl)).
Defined.

(** C1 (as stated) fails: a peer grants [null] as the token; [sign_in]
    succeeds, stores it and maps [Session-Token] to it, yet the call the
    session makes next is prepared without that header. *)
Lemma sign_in_null_token_not_carried :
  ∃ w', sign_in Stub.config Stub.decode_utf8 Stub.json_loads_null Stub.peer_null
          "admin" "secret" "id-1" (fresh_world Stub.config)
        = (Ok "Success", w')
      ∧ session_token (self w') = Some JNull
      ∧ header "Session-Token" (headers (client (self w'))) = Some JNull
      ∧ ∃ req,
          snd (client_get Stub.peer_null
                 "https://onguard.example/api/access/onguard/openaccess/directories?version=1.0"
                 w') = logged w' req
          ∧ accepted (req_headers req)
          ∧ wire_header "Session-Token" (req_headers req) = None
          ∧ ¬ ∃ s, carries req "Session-Token" s.
Proof.
  assert (Hgrant : grants Stub.decode_utf8 Stub.json_loads_null Stub.peer_null
                     (sent (fresh_world Stub.config)) (self (fresh_world Stub.config))
                     "admin" "secret" "id-1" JNull).
  { exists (Stub.answer 200 "OK" (Stub.dumps Stub.null_token_document)),
           (Stub.dumps Stub.null_token_document), Stub.null_token_document.
    repeat split; vm_compute; reflexivity. }
  eexists. split; [exact (sign_in_granted _ _ _ _ _ _ _ _ _ Hgrant)|].
  split; [reflexivity|]. split; [reflexivity|].
  eexists. split; [apply client_get_run|].
  assert (Hwire : wire_header "Session-Token"
                    (update_header "Session-Token" JNull
                       (headers (client (init Stub.config)))) = None)
    by (by apply wire_header_update).
  split; [|split; [exact Hwire|]].
  - apply accepted_update; [done|]. apply accepted_init. reflexivity.
  - intros (s & _ & Hs).
    change (wire_header "Session-Token"
              (update_header "Session-Token" JNull
                 (headers (client (init Stub.config)))) = Some s) in Hs.
    rewrite Hwire in Hs. discriminate.
Qed.

Lemma sign_in_returns_string_witness :
  (∀ response,
     Stub.peer [] (authentication_request (init Stub.config) "admin" "secret" "id-1")
       = Responds response →
     ok response = true →
     ∃ body result tok,
       Stub.decode_utf8 (content response) = Some body
       ∧ Stub.json_loads body = Some result
       ∧ getitem result "session_token" = Ok tok)
  ∧ ∃ msg : string,
      fst (sign_in Stub.config Stub.decode_utf8 Stub.json_loads Stub.peer
             "admin" "secret" "id-1" (fresh_world Stub.config)) = Ok msg.
Proof.
  assert (H : ∀ response,
     Stub.peer [] (authentication_request (self (fresh_world Stub.config))
                  "admin" "secret" "id-1") = Responds response →
     ok response = true →
     ∃ body result tok,
       Stub.decode_utf8 (content response) = Some body
       ∧ Stub.json_loads body = Some result
       ∧ getitem result "session_token" = Ok tok).
  { intros response Hr _. vm_compute in Hr. injection Hr as <-.
    exists (Stub.dumps Stub.token_document), Stub.token_document, (JStr "T").
    repeat split; vm_compute; reflexivity. }
  split; [exact H|].
  exact (sign_in_returns_string Stub.config Stub.decode_utf8 Stub.json_loads
           Stub.peer "admin" "secret" "id-1" (fresh_world Stub.config) H).
Defined.

(** C2 (as stated) fails: an ok response whose body is the empty object
    makes [sign_in] raise [KeyError]. *)
Lemma sign_in_ok_without_token_raises :
  Stub.peer_empty [] (authentication_request (init Stub.config) "admin" "secret" "id-1")
    = Responds (Stub.answer 200 "OK" "{}")
  ∧ fst (sign_in Stub.config Stub.decode_utf8 Stub.json_loads Stub.peer_empty
           "admin" "secret" "id-1" (fresh_world Stub.config))
      = Raise (KeyError "session_token")
  ∧ ¬ ∃ msg : string,
        fst (sign_in Stub.config Stub.decode_utf8 Stub.json_loads Stub.peer_empty
               "admin" "secret" "id-1" (fresh_world Stub.config)) = Ok msg.
Proof.
  assert (H : fst (sign_in Stub.config Stub.decode_utf8 Stub.json_loads
                     Stub.peer_empty "admin" "secret" "id-1"
                     (fresh_world Stub.config))
              = Raise (KeyError "session_token"))
    by (vm_compute; reflexivity).
  split; [reflexivity|]. split; [exact H|].
  intros [msg Hmsg]. rewrite H in Hmsg. discriminate.
Qed.

Lemma sign_in_connection_failure_witness :
  Stub.peer_down [] (authentication_request (init Stub.config) "admin" "secret" "id-1")
    = Fails "Connection refused"
  ∧ ∃ msg : string,
      sign_in Stub.config Stub.decode_utf8 Stub.json_loads Stub.peer_down
        "admin" "secret" "id-1" (fresh_world Stub.config)
        = (Ok msg, posted (fresh_world Stub.config) "admin" "secret" "id-1")
      ∧ contains "Connection" msg = true.
Proof.
  split; [reflexivity|].
  destruct (sign_in_connection_failure Stub.config Stub.decode_utf8
              Stub.json_loads Stub.peer_down "admin" "secret" "id-1"
              (fresh_world Stub.config) "Connection refused" eq_refl)
    as (msg & Hrun & Hc & _).
  exists msg. split; assumption.
Defined.

Lemma sign_in_failure_atomic_witness :
  (Stub.peer_failing [] (authentication_request (init Stub.config) "admin" "secret" "id-1")
     = Responds (Stub.answer 500 "Internal Server Error" "boom")
   ∧ ok (Stub.answer 500 "Internal Server Error" "boom") = false)
  ∧ self (snd (sign_in Stub.config Stub.decode_utf8 Stub.json_loads
                 Stub.peer_failing "admin" "secret" "id-1"
                 (fresh_world Stub.config)))
      = init Stub.config
  ∧ session_token
      (self (snd (sign_in Stub.config Stub.decode_utf8 Stub.json_loads
                    Stub.peer_failing "admin" "secret" "id-1"
                    (fresh_world Stub.config))))
      = None.
Proof.
  assert (H : Stub.peer_failing []
                (authentication_request (self (fresh_world Stub.config))
                   "admin" "secret" "id-1")
              = Responds (Stub.answer 500 "Internal Server Error" "boom")
              ∧ ok (Stub.answer 500 "Internal Server Error" "boom") = false)
    by (split; reflexivity).
  destruct (sign_in_failure_atomic Stub.config Stub.decode_utf8 Stub.json_loads
              Stub.peer_failing "admin" "secret" "id-1" (fresh_world Stub.config)
              (or_intror (ex_intro _ _ H))) as [Hself Hfresh].
  split; [exact H|]. split; [exact Hself|].
  exact (proj1 (Hfresh eq_refl)).
Defined.

Lemma retrieve_readers_zero_count_witness :
  served Stub.decode_utf8 Stub.json_loads Stub.peer []
    (instances_request Stub.config (init Stub.config) "Lnl_Reader" 1 9)
    = Some Stub.no_readers_document
  ∧ getitem Stub.no_readers_document "count" = Ok (JInt 0)
  ∧ py_eq_int (JInt 0) 0 = true
  ∧ retrieve_readers Stub.config Stub.decode_utf8 Stub.json_loads Stub.peer 9
      (fresh_world Stub.config)
      = (Ok [],
         {| self := init Stub.config;
            sent := [instances_request Stub.config (init Stub.config) "Lnl_Reader" 1 9];
            stdout := [] |})
  ∧ ∃ unfiltered : string,
      req_url (instances_request Stub.config (init Stub.config) "Lnl_Reader" 1 9)
        = unfiltered ++ "&filter=panelid = " ++ "9".
Proof.
  assert (H1 : served Stub.decode_utf8 Stub.json_loads Stub.peer []
                 (instances_request Stub.config (self (fresh_world Stub.config))
                    "Lnl_Reader" 1 9)
               = Some Stub.no_readers_document)
    by (vm_compute; reflexivity).
  destruct (retrieve_readers_zero_count Stub.config Stub.decode_utf8
              Stub.json_loads Stub.peer 9 (fresh_world Stub.config)
              Stub.no_readers_document (JInt 0) H1 eq_refl eq_refl)
    as [Hrun Hurl].
  split; [exact H1|]. split; [reflexivity|]. split; [reflexivity|].
  split; [exact Hrun|].
  assert (Hne : (9 : Z) ≠ -1) by lia.
  exact (Hurl Hne).
Defined.

Lemma retrieve_all_pages_witness :
  1 ≤ 2
  ∧ retrieve_panels Stub.config Stub.decode_utf8 Stub.json_loads Stub.peer
      (fresh_world Stub.config)
      = (Ok [Stub.lobby; Stub.garage],
         {| self := with_panels (init Stub.config) [Stub.lobby; Stub.garage];
            sent := page_requests Stub.config (init Stub.config) "Lnl_Panel" (-1) [1; 2];
            stdout := [] |})
  ∧ retrieve_readers Stub.config Stub.decode_utf8 Stub.json_loads Stub.peer 5
      (fresh_world Stub.config)
      = (Ok [Stub.front_door; Stub.back_door],
         {| self := init Stub.config;
            sent := page_requests Stub.config (init Stub.config) "Lnl_Reader" 5 [1; 2];
            stdout := [] |}).
Proof.
  assert (HN : 1 ≤ 2) by lia.
  destruct (retrieve_all_pages Stub.config Stub.decode_utf8 Stub.json_loads
              Stub.peer (fresh_world Stub.config) 2 HN) as [Hpanels Hreaders].
  split; [exact HN|]. split.
  - apply (Hpanels Stub.panels_page Stub.panels_items).
    + intros i Hi. assert (i = 1 ∨ i = 2) as [-> | ->] by lia;
        vm_compute; reflexivity.
    + reflexivity.
    + intros i Hi. assert (i = 1 ∨ i = 2) as [-> | ->] by lia; reflexivity.
  - apply (Hreaders 5 Stub.readers_page Stub.readers_items (JInt 1)).
    + intros i Hi. assert (i = 1 ∨ i = 2) as [-> | ->] by lia;
        vm_compute; reflexivity.
    + reflexivity.
    + reflexivity.
    + reflexivity.
    + intros i Hi. assert (i = 1 ∨ i = 2) as [-> | ->] by lia; reflexivity.
Defined.

Lemma get_directories_none_iff_witness :
  Stub.peer [] (directories_request (init Stub.config))
    = Responds (Stub.answer 200 "OK" (Stub.dumps Stub.directories_document))
  ∧ Stub.json_loads (Stub.dumps Stub.directories_document)
      = Some Stub.directories_document
  ∧ Forall2 directory_item [Stub.corporate_item] [Stub.corporate]
  ∧ fst (get_directories Stub.json_loads Stub.peer (fresh_world Stub.config))
      = Ok (VDirectories [{| directory_Id := JStr "id-1";
                             directory_Name := JStr "Corporate" |}])
  ∧ fst (get_directories Stub.json_loads Stub.peer (fresh_world Stub.config))
      ≠ Ok VNone.
Proof.
  assert (H1 : Stub.peer [] (directories_request (self (fresh_world Stub.config)))
               = Responds (Stub.answer 200 "OK" (Stub.dumps Stub.directories_document)))
    by (vm_compute; reflexivity).
  assert (H2 : Stub.json_loads
                 (text (Stub.answer 200 "OK" (Stub.dumps Stub.directories_document)))
               = Some Stub.directories_document)
    by (vm_compute; reflexivity).
  assert (H3 : Forall2 directory_item [Stub.corporate_item] [Stub.corporate]).
  { constructor; [|constructor].
    exists (JObj [("ID", JStr "id-1"); ("Name", JStr "Corporate")]).
    repeat split. }
  destruct (get_directories_none_iff Stub.json_loads Stub.peer
              (fresh_world Stub.config)) as [_ Hresp].
  destruct (Hresp _ H1) as [Hnone Hlist].
  destruct (Hlist Stub.directories_document [Stub.corporate_item] [Stub.corporate]
              eq_refl H2 eq_refl H3) as [Hrun _].
  split; [exact H1|]. split; [exact H2|]. split; [exact H3|]. split.
  - rewrite Hrun. reflexivity.
  - intros Hn. apply Hnone in Hn. apply Hn. reflexivity.
Defined.

(** [OpenDoor] on reader 7 of panel 3, in front of a peer that would answer
    200 to anything: the call ends in [AttributeError] and nothing is sent. *)
Lemma OpenDoor_raises_witness :
  OpenDoor Stub.config Stub.peer_empty {| panelId := 3; id := 7 |}
    (fresh_world Stub.config)
    = (Raise (AttributeError "post_json"), fresh_world Stub.config)
  ∧ fst (OpenDoor Stub.config Stub.peer_empty {| panelId := 3; id := 7 |}
           (fresh_world Stub.config)) ≠ Ok "Success".
Proof.
  destruct (OpenDoor_raises Stub.config Stub.peer_empty
              {| panelId := 3; id := 7 |} (fresh_world Stub.config))
    as (Hrun & _ & Hnever).
  split; [exact Hrun | apply Hnever].
Defined.

Lemma build_uri_with_version_exact_witness :
  build_uri_with_version "instances" "1.0" (fresh_world Stub.config)
    = (Ok "https://onguard.example/api/access/onguard/openaccess/instances?version=1.0",
       fresh_world Stub.config).
Proof.
  exact (proj1 (build_uri_with_version_exact Stub.config Stub.decode_utf8
                  Stub.json_loads Stub.peer "instances" "1.0"
                  (fresh_world Stub.config))).
Defined.

(** ** The further theorems at work on the test doubles *)

Lemma get_panels_from_result_ok_inv_witness :
  get_panels_from_result (JObj [("item_list", JArr [Stub.lobby_item; Stub.garage_item])])
    = Ok [Stub.lobby; Stub.garage]
  ∧ ∃ l items,
      getitem (JObj [("item_list", JArr [Stub.lobby_item; Stub.garage_item])]) "item_list"
        = Ok l
      ∧ iterate l = Ok items
      ∧ Forall2 panel_item items [Stub.lobby; Stub.garage]
      ∧ length [Stub.lobby; Stub.garage] = length items.
Proof.
  split; [reflexivity|].
  exact (get_panels_from_result_ok_inv
           (JObj [("item_list", JArr [Stub.lobby_item; Stub.garage_item])])
           [Stub.lobby; Stub.garage] eq_refl).
Defined.

Lemma projection_stops_at_first_bad_item_witness :
  Forall2 panel_item [Stub.lobby_item] [Stub.lobby]
  ∧ panel_of_item Stub.nameless_item = Raise (KeyError "Name")
  ∧ get_panels_from_result
      (JObj [("item_list",
              JArr [Stub.lobby_item; Stub.nameless_item; Stub.garage_item])])
      = Raise (KeyError "Name").
Proof.
  assert (Hgood : Forall2 panel_item [Stub.lobby_item] [Stub.lobby]).
  { constructor; [|constructor].
    exists (JObj [("ID", JStr "1"); ("Name", JStr "Lobby");
                  ("IsOnline", JBool true); ("PanelType", JStr "X")]), (JBool true).
    repeat split. }
  split; [exact Hgood|]. split; [reflexivity|].
  exact (proj1 (projection_stops_at_first_bad_item
                  (JObj [("item_list",
                          JArr [Stub.lobby_item; Stub.nameless_item; Stub.garage_item])])
                  [Stub.lobby_item] Stub.nameless_item [Stub.garage_item]
                  (KeyError "Name") eq_refl)
           [Stub.lobby] Hgood eq_refl).
Defined.

Lemma sign_in_server_error_witness :
  Stub.peer_failing [] (authentication_request (init Stub.config) "admin" "secret" "id-1")
    = Responds (Stub.answer 500 "Internal Server Error" "boom")
  ∧ 400 ≤ 500 < 600
  ∧ ∃ msg : string,
      sign_in Stub.config Stub.decode_utf8 Stub.json_loads Stub.peer_failing
        "admin" "secret" "id-1" (fresh_world Stub.config)
        = (Ok msg, posted (fresh_world Stub.config) "admin" "secret" "id-1")
      ∧ contains "500: Internal Server Error" msg = true.
Proof.
  assert (Hs : 400 ≤ status_code (Stub.answer 500 "Internal Server Error" "boom") < 600)
    by (simpl; lia).
  destruct (sign_in_server_error Stub.config Stub.decode_utf8 Stub.json_loads
              Stub.peer_failing "admin" "secret" "id-1" (fresh_world Stub.config)
              (Stub.answer 500 "Internal Server Error" "boom") eq_refl Hs)
    as (msg & Hrun & _ & Hc).
  split; [reflexivity|]. split; [lia|].
  exists msg. split; [exact Hrun|exact Hc].
Defined.

Lemma sign_in_again_refreshes_witness :
  plain_text "T" = true
  ∧ accepted (headers (client (init Stub.config)))
  ∧ grants Stub.decode_utf8 Stub.json_loads_rotated Stub.peer_rotating
      [] (init Stub.config) "admin" "secret" "id-1" (JStr "T")
  ∧ grants Stub.decode_utf8 Stub.json_loads_rotated Stub.peer_rotating
      [authentication_request (init Stub.config) "admin" "secret" "id-1"]
      (authenticated (init Stub.config) (JStr "T")) "admin" "secret" "id-1" (JStr "T2")
  ∧ ∃ w', (sign_in Stub.config Stub.decode_utf8 Stub.json_loads_rotated
             Stub.peer_rotating "admin" "secret" "id-1"
           ≫= λ _, sign_in Stub.config Stub.decode_utf8 Stub.json_loads_rotated
                     Stub.peer_rotating "admin" "secret" "id-1")
            (fresh_world Stub.config)
          = (Ok "Success", w')
        ∧ self w' = authenticated (init Stub.config) (JStr "T2")
        ∧ carries (authentication_request (authenticated (init Stub.config) (JStr "T"))
                     "admin" "secret" "id-1") "Session-Token" "T".
Proof.
  assert (H0 : plain_text "T" = true) by reflexivity.
  assert (Hacc : accepted (headers (client (self (fresh_world Stub.config)))))
    by (apply accepted_init; reflexivity).
  assert (H1 : grants Stub.decode_utf8 Stub.json_loads_rotated Stub.peer_rotating
                 (sent (fresh_world Stub.config)) (self (fresh_world Stub.config))
                 "admin" "secret" "id-1" (JStr "T")).
  { exists (Stub.answer 200 "OK" (Stub.dumps Stub.token_document)),
           (Stub.dumps Stub.token_document), Stub.token_document.
    repeat split; vm_compute; reflexivity. }
  assert (H2 : grants Stub.decode_utf8 Stub.json_loads_rotated Stub.peer_rotating
                 (sent (fresh_world Stub.config)
                  ++ [authentication_request (self (fresh_world Stub.config))
                        "admin" "secret" "id-1"])
                 (authenticated (self (fresh_world Stub.config)) (JStr "T"))
                 "admin" "secret" "id-1" (JStr "T2")).
  { exists (Stub.answer 200 "OK" (Stub.dumps Stub.rotated_document)),
           (Stub.dumps Stub.rotated_document), Stub.rotated_document.
    repeat split; vm_compute; reflexivity. }
  destruct (sign_in_again_refreshes Stub.config Stub.decode_utf8
              Stub.json_loads_rotated Stub.peer_rotating
              "admin" "secret" "id-1" "admin" "secret" "id-1"
              (fresh_world Stub.config) "T" (JStr "T2") H0 Hacc H1 H2)
    as (w' & Hrun & Hself & _ & Hcarries & _).
  split; [exact H0|]. split; [exact Hacc|]. split; [exact H1|]. split; [exact H2|].
  exists w'. split; [exact Hrun|]. split; [exact Hself|exact Hcarries].
Defined.

Lemma sign_in_unusable_body_raises_witness :
  Stub.peer_empty [] (authentication_request (init Stub.config) "admin" "secret" "id-1")
    = Responds (Stub.answer 200 "OK" "{}")
  ∧ (200 < 400 ∨ 600 ≤ 200)
  ∧ sign_in Stub.config Stub.decode_utf8 Stub.json_loads Stub.peer_empty
      "admin" "secret" "id-1" (fresh_world Stub.config)
      = (Raise (KeyError "session_token"),
         posted (fresh_world Stub.config) "admin" "secret" "id-1").
Proof.
  assert (Hs : status_code (Stub.answer 200 "OK" "{}") < 400
               ∨ 600 ≤ status_code (Stub.answer 200 "OK" "{}"))
    by (left; simpl; lia).
  destruct (sign_in_unusable_body_raises Stub.config Stub.decode_utf8
              Stub.json_loads Stub.peer_empty "admin" "secret" "id-1"
              (fresh_world Stub.config) (Stub.answer 200 "OK" "{}") eq_refl Hs)
    as (_ & _ & Hkey).
  split; [reflexivity|]. split; [left; lia|].
  apply (Hkey "{}" (JObj [])); reflexivity.
Defined.

Lemma requests_after_sign_in_carry_token_witness :
  grants Stub.decode_utf8 Stub.json_loads Stub.peer
    [] (init Stub.config) "admin" "secret" "id-1" (JStr "T")
  ∧ plain_text "T" = true
  ∧ accepted (headers (client (init Stub.config)))
  ∧ all_sent_with "Session-Token" "T"
      (sent (snd (sign_in Stub.config Stub.decode_utf8 Stub.json_loads Stub.peer
                    "admin" "secret" "id-1" (fresh_world Stub.config))))
      (sent (snd (retrieve_readers Stub.config Stub.decode_utf8 Stub.json_loads
                    Stub.peer 5
                    (snd (sign_in Stub.config Stub.decode_utf8 Stub.json_loads
                            Stub.peer "admin" "secret" "id-1"
                            (fresh_world Stub.config)))))).
Proof.
  assert (H1 : grants Stub.decode_utf8 Stub.json_loads Stub.peer
                 (sent (fresh_world Stub.config)) (self (fresh_world Stub.config))
                 "admin" "secret" "id-1" (JStr "T")).
  { exists (Stub.answer 200 "OK" (Stub.dumps Stub.token_document)),
           (Stub.dumps Stub.token_document), Stub.token_document.
    repeat split; vm_compute; reflexivity. }
  assert (H2 : plain_text "T" = true) by reflexivity.
  assert (H3 : accepted (headers (client (self (fresh_world Stub.config)))))
    by (apply accepted_init; reflexivity).
  split; [exact H1|]. split; [exact H2|]. split; [exact H3|].
  exact (proj1 (proj2 (requests_after_sign_in_carry_token Stub.config
                         Stub.decode_utf8 Stub.json_loads Stub.peer
                         "admin" "secret" "id-1" (fresh_world Stub.config)
                         "T" H1 H2 H3)) 5).
Defined.

Lemma transport_failure_escapes_witness :
  Stub.peer_down [] (instances_request Stub.config (init Stub.config) "Lnl_Panel" 1 (-1))
    = Fails "Connection refused"
  ∧ fst (retrieve_panels Stub.config Stub.decode_utf8 Stub.json_loads Stub.peer_down
           {| self := with_panels (init Stub.config) [Stub.lobby];
              sent := []; stdout := [] |})
      = Raise (RequestException "Connection refused")
  ∧ panels (self (snd (retrieve_panels Stub.config Stub.decode_utf8 Stub.json_loads
                         Stub.peer_down
                         {| self := with_panels (init Stub.config) [Stub.lobby];
                            sent := []; stdout := [] |})))
      = [].
Proof.
  pose proof (proj1 (transport_failure_escapes Stub.config Stub.decode_utf8
                       Stub.json_loads Stub.peer_down
                       {| self := with_panels (init Stub.config) [Stub.lobby];
                          sent := []; stdout := [] |}
                       "Connection refused") eq_refl) as Hrun.
  split; [reflexivity|]. rewrite Hrun. split; reflexivity.
Defined.

Lemma retrieve_panels_fails_midway_witness :
  2 ≤ 2 ≤ 2
  ∧ Stub.peer_flaky
      [instances_request Stub.config (init Stub.config) "Lnl_Panel" 1 (-1)]
      (instances_request Stub.config (init Stub.config) "Lnl_Panel" 2 (-1))
      = Fails "Connection reset by peer"
  ∧ retrieve_panels Stub.config Stub.decode_utf8 Stub.json_loads Stub.peer_flaky
      (fresh_world Stub.config)
      = (Raise (RequestException "Connection reset by peer"),
         {| self := with_panels (init Stub.config) [Stub.lobby];
            sent := page_requests Stub.config (init Stub.config) "Lnl_Panel" (-1) [1; 2];
            stdout := [] |}).
Proof.
  assert (Hk : 2 ≤ 2 ≤ 2) by lia.
  split; [exact Hk|]. split; [reflexivity|].
  apply (retrieve_panels_fails_midway Stub.config Stub.decode_utf8 Stub.json_loads
           Stub.peer_flaky (fresh_world Stub.config) 2 2
           Stub.panels_page Stub.panels_items "Connection reset by peer" Hk).
  - intros i Hi. assert (i = 1) as -> by lia. vm_compute. reflexivity.
  - reflexivity.
  - intros i Hi. assert (i = 1) as -> by lia. reflexivity.
  - reflexivity.
Defined.

Lemma single_page_single_request_witness :
  0 ≤ 1
  ∧ served Stub.decode_utf8 Stub.json_loads Stub.peer_nothing []
      (instances_request Stub.config (init Stub.config) "Lnl_Panel" 1 (-1))
      = Some Stub.no_readers_document
  ∧ retrieve_panels Stub.config Stub.decode_utf8 Stub.json_loads Stub.peer_nothing
      (fresh_world Stub.config)
      = (Ok [],
         {| self := with_panels (init Stub.config) [];
            sent := [instances_request Stub.config (init Stub.config) "Lnl_Panel" 1 (-1)];
            stdout := [] |}).
Proof.
  assert (HN : 0 ≤ 1) by lia.
  assert (Hs : served Stub.decode_utf8 Stub.json_loads Stub.peer_nothing
                 (sent (fresh_world Stub.config))
                 (instances_request Stub.config (self (fresh_world Stub.config))
                    "Lnl_Panel" 1 (-1))
               = Some Stub.no_readers_document)
    by (vm_compute; reflexivity).
  split; [exact HN|]. split; [exact Hs|].
  exact (proj1 (single_page_single_request Stub.config Stub.decode_utf8
                  Stub.json_loads Stub.peer_nothing (fresh_world Stub.config) 0 HN)
           Stub.no_readers_document [] Hs eq_refl eq_refl).
Defined.

Lemma retrieve_panels_bad_total_pages_witness :
  served Stub.decode_utf8 Stub.json_loads Stub.peer_empty []
    (instances_request Stub.config (init Stub.config) "Lnl_Panel" 1 (-1))
    = Some Stub.empty_document
  ∧ getitem Stub.empty_document "total_pages" = Raise (KeyError "total_pages")
  ∧ retrieve_panels Stub.config Stub.decode_utf8 Stub.json_loads Stub.peer_empty
      (fresh_world Stub.config)
      = (Raise (KeyError "total_pages"),
         {| self := with_panels (init Stub.config) [];
            sent := [instances_request Stub.config (init Stub.config) "Lnl_Panel" 1 (-1)];
            stdout := [] |}).
Proof.
  assert (Hs : served Stub.decode_utf8 Stub.json_loads Stub.peer_empty
                 (sent (fresh_world Stub.config))
                 (instances_request Stub.config (self (fresh_world Stub.config))
                    "Lnl_Panel" 1 (-1))
               = Some Stub.empty_document)
    by (vm_compute; reflexivity).
  split; [exact Hs|]. split; [reflexivity|].
  exact (proj1 (retrieve_panels_bad_total_pages Stub.config Stub.decode_utf8
                  Stub.json_loads Stub.peer_empty (fresh_world Stub.config)
                  Stub.empty_document Hs)
           (KeyError "total_pages") eq_refl).
Defined.

Lemma get_panels_after_retrieve_panels_witness :
  fst (retrieve_panels Stub.config Stub.decode_utf8 Stub.json_loads Stub.peer
         (fresh_world Stub.config))
    = Ok [Stub.lobby; Stub.garage]
  ∧ fst ((retrieve_panels Stub.config Stub.decode_utf8 Stub.json_loads Stub.peer
          ≫= λ _, get_panels)
           (fresh_world Stub.config))
      = Ok [Stub.lobby; Stub.garage].
Proof.
  assert (H : retrieve_panels Stub.config Stub.decode_utf8 Stub.json_loads Stub.peer
                (fresh_world Stub.config)
              = (Ok [Stub.lobby; Stub.garage],
                 snd (retrieve_panels Stub.config Stub.decode_utf8 Stub.json_loads
                        Stub.peer (fresh_world Stub.config))))
    by (vm_compute; reflexivity).
  destruct (get_panels_after_retrieve_panels Stub.config Stub.decode_utf8
              Stub.json_loads Stub.peer _ _ _ H) as (_ & _ & Hboth).
  split; [by rewrite H|by rewrite Hboth].
Defined.

Lemma request_cardholder_query_witness :
  req_url (cardholders_request (init Stub.config) true
             (Some "lastname = 'Lake'") None)
    = "https://onguard.example/api/access/onguard/openaccess/cardholders?version=1.2&auto_load_badge=true&cardholder_filter=lastname = 'Lake'"
  ∧ sent (snd (request_cardholder Stub.decode_utf8 Stub.json_loads Stub.peer
                 true false (Some "lastname = 'Lake'") None
                 (fresh_world Stub.config)))
      = [cardholders_request (init Stub.config) true (Some "lastname = 'Lake'") None].
Proof.
  split; [reflexivity|].
  by rewrite (proj1 (request_cardholder_query Stub.decode_utf8 Stub.json_loads
                       Stub.peer true false (Some "lastname = 'Lake'") None
                       (fresh_world Stub.config))).
Defined.

Lemma session_invariant_witness :
  reachable Stub.config Stub.decode_utf8 Stub.json_loads Stub.peer
    (snd (retrieve_readers Stub.config Stub.decode_utf8 Stub.json_loads Stub.peer 5
            (snd (sign_in Stub.config Stub.decode_utf8 Stub.json_loads Stub.peer
                    "admin" "secret" "id-1" (fresh_world Stub.config)))))
  ∧ header "Session-Token"
      (headers (client (self
         (snd (retrieve_readers Stub.config Stub.decode_utf8 Stub.json_loads Stub.peer 5
                 (snd (sign_in Stub.config Stub.decode_utf8 Stub.json_loads Stub.peer
                         "admin" "secret" "id-1" (fresh_world Stub.config))))))))
    = session_token (self
         (snd (retrieve_readers Stub.config Stub.decode_utf8 Stub.json_loads Stub.peer 5
                 (snd (sign_in Stub.config Stub.decode_utf8 Stub.json_loads Stub.peer
                         "admin" "secret" "id-1" (fresh_world Stub.config)))))).
Proof.
  assert (Hr : reachable Stub.config Stub.decode_utf8 Stub.json_loads Stub.peer
    (snd (retrieve_readers Stub.config Stub.decode_utf8 Stub.json_loads Stub.peer 5
            (snd (sign_in Stub.config Stub.decode_utf8 Stub.json_loads Stub.peer
                    "admin" "secret" "id-1" (fresh_world Stub.config)))))).
  { eapply reachable_step; [|apply step_retrieve_readers].
    eapply reachable_step; [apply reachable_fresh|apply step_sign_in]. }
  split; [exact Hr|].
  exact (proj1 (session_invariant Stub.config Stub.decode_utf8 Stub.json_loads
                  Stub.peer _ Hr)).
Defined.

Lemma transport_invariant_witness :
  reachable Stub.config Stub.decode_utf8 Stub.json_loads Stub.peer
    (snd (retrieve_panels Stub.config Stub.decode_utf8 Stub.json_loads Stub.peer
            (snd (sign_in Stub.config Stub.decode_utf8 Stub.json_loads Stub.peer
                    "admin" "secret" "id-1" (fresh_world Stub.config)))))
  ∧ Forall (λ r, req_verify r = false)
      (sent (snd (retrieve_panels Stub.config Stub.decode_utf8 Stub.json_loads Stub.peer
                    (snd (sign_in Stub.config Stub.decode_utf8 Stub.json_loads Stub.peer
                            "admin" "secret" "id-1" (fresh_world Stub.config)))))).
Proof.
  assert (Hr : reachable Stub.config Stub.decode_utf8 Stub.json_loads Stub.peer
    (snd (retrieve_panels Stub.config Stub.decode_utf8 Stub.json_loads Stub.peer
            (snd (sign_in Stub.config Stub.decode_utf8 Stub.json_loads Stub.peer
                    "admin" "secret" "id-1" (fresh_world Stub.config)))))).
  { eapply reachable_step; [|apply step_retrieve_panels].
    eapply reachable_step; [apply reachable_fresh|apply step_sign_in]. }
  split; [exact Hr|].
  exact (proj2 (proj2 (transport_invariant Stub.config Stub.decode_utf8
                         Stub.json_loads Stub.peer _ Hr))).
Defined.
